(** * Expense management: schema, signal handler and approval engine

    A shallow embedding of [expense_management/app/models.py]: the eight
    Django models become records, the tables of the database become finite
    maps from primary keys to rows, every [on_delete] policy of a foreign
    key becomes a step of the deletion functions, the [post_save]
    receiver [create_company_for_admin] becomes a function on the database,
    and the [__str__] methods become functions that read the rows their
    foreign keys point at.  The admin classes of [admin.py] are records of
    field names in [Module Admin], resolved against the fields of the
    models.

    The approval engine (rule evaluator, flow resolver, state machine) has no
    implementation in the repository; [Module Engine] models it from the
    specification. *)

From Stdlib Require Import ZArith QArith Lia Ascii.
From stdpp Require Import base option gmap strings list fin_maps sorting pretty.

Local Open Scope Z_scope.

(* ===================================================================== *)
(** ** The models of [models.py]                                          *)
(* ===================================================================== *)

(** Primary keys are natural numbers.  A nullable foreign key
    ([null=True]) is an [option]; a [CharField] with [choices] is an
    inductive type; a [DecimalField(decimal_places=2)] is an integer number
    of hundredths; a [DateTimeField] or [DateField] is an integer. *)

Module Company.
Record t := mk {
  name : string;
  country : string;
  currency_code : string;
  currency_symbol : string;
  created_at : Z }.
End Company.

Module Department.
Record t := mk {
  company : nat;                      (* on_delete=CASCADE *)
  name : string }.
End Department.

Inductive Role := ADMIN | MANAGER | EMPLOYEE.

Module User.
Record t := mk {
  username : string;                  (* stands for the AbstractUser fields *)
  company : option nat;               (* on_delete=CASCADE, null=True *)
  department : option nat;            (* on_delete=SET_NULL *)
  role : Role;
  manager : option nat }.             (* "self", on_delete=SET_NULL *)

Definition default_role : Role := EMPLOYEE.

Definition set_company (c : option nat) (u : t) : t :=
  mk (username u) c (department u) (role u) (manager u).
Definition set_department (d : option nat) (u : t) : t :=
  mk (username u) (company u) d (role u) (manager u).
Definition set_manager (m : option nat) (u : t) : t :=
  mk (username u) (company u) (department u) (role u) m.
End User.

Inductive RuleType := PERCENTAGE | SPECIFIC | HYBRID.

Module ApprovalRule.
Record t := mk {
  company : nat;                      (* on_delete=CASCADE *)
  name : string;
  rule_type : RuleType;
  minimum_percentage : option Z;      (* IntegerField(null=True, blank=True) *)
  specific_approver : option nat;     (* on_delete=SET_NULL, null=True *)
  is_active : bool }.

Definition default_is_active : bool := true.

Definition set_specific_approver (a : option nat) (r : t) : t :=
  mk (company r) (name r) (rule_type r) (minimum_percentage r) a (is_active r).
End ApprovalRule.

Module ApprovalFlow.
Record t := mk {
  company : nat;                      (* on_delete=CASCADE *)
  name : string;
  description : string;
  department : option nat;            (* on_delete=SET_NULL *)
  min_amount : option Z;
  max_amount : option Z;
  rule : option nat;                  (* on_delete=SET_NULL *)
  created_at : Z }.

Definition set_department (d : option nat) (f : t) : t :=
  mk (company f) (name f) (description f) d (min_amount f) (max_amount f)
     (rule f) (created_at f).
Definition set_rule (r : option nat) (f : t) : t :=
  mk (company f) (name f) (description f) (department f) (min_amount f)
     (max_amount f) r (created_at f).
End ApprovalFlow.

Module FlowStep.
Record t := mk {
  flow : nat;                         (* on_delete=CASCADE *)
  approver : nat;                     (* on_delete=CASCADE *)
  order : Z;
  is_manager_step : bool;
  is_high_priority : bool }.

Definition default_is_manager_step : bool := false.
Definition default_is_high_priority : bool := false.
End FlowStep.

Inductive ExpenseStatus := DRAFT | PENDING | APPROVED | REJECTED.

Module Expense.
Record t := mk {
  employee : nat;                     (* on_delete=CASCADE *)
  description : string;
  category : string;
  amount : Z;
  currency_code : string;
  currency_symbol : string;
  converted_amount : Z;
  converted_currency_code : string;
  converted_currency_symbol : string;
  expense_date : Z;
  receipt : option string;
  status : ExpenseStatus;
  created_at : Z;
  approval_rule : option nat;         (* on_delete=SET_NULL *)
  flow : option nat }.                (* on_delete=SET_NULL *)

Definition default_status : ExpenseStatus := DRAFT.

Definition set_status (s : ExpenseStatus) (e : t) : t :=
  mk (employee e) (description e) (category e) (amount e) (currency_code e)
     (currency_symbol e) (converted_amount e) (converted_currency_code e)
     (converted_currency_symbol e) (expense_date e) (receipt e) s
     (created_at e) (approval_rule e) (flow e).
Definition set_approval_rule (r : option nat) (e : t) : t :=
  mk (employee e) (description e) (category e) (amount e) (currency_code e)
     (currency_symbol e) (converted_amount e) (converted_currency_code e)
     (converted_currency_symbol e) (expense_date e) (receipt e) (status e)
     (created_at e) r (flow e).
Definition set_flow (f : option nat) (e : t) : t :=
  mk (employee e) (description e) (category e) (amount e) (currency_code e)
     (currency_symbol e) (converted_amount e) (converted_currency_code e)
     (converted_currency_symbol e) (expense_date e) (receipt e) (status e)
     (created_at e) (approval_rule e) f.

(** [Expense(...)] / [Expense.objects.create(...)]: the keyword arguments
    of the fields that carry no default are required, [status] may be
    left out and then takes the field's default; the nullable fields
    default to [None]. *)
Definition create (employee : nat) (description category : string)
    (amount : Z) (currency_code currency_symbol : string)
    (converted_amount : Z)
    (converted_currency_code converted_currency_symbol : string)
    (expense_date : Z) (now : Z)
    (receipt : option string) (status : option ExpenseStatus)
    (approval_rule flow : option nat) : t :=
  mk employee description category amount currency_code currency_symbol
     converted_amount converted_currency_code converted_currency_symbol
     expense_date receipt (default default_status status) now
     approval_rule flow.
End Expense.

Inductive ApprovalStatus := A_PENDING | A_APPROVED | A_REJECTED.

Module ExpenseApproval.
Record t := mk {
  expense : nat;                      (* on_delete=CASCADE *)
  approver : nat;                     (* on_delete=CASCADE *)
  flow_step : option nat;             (* on_delete=SET_NULL, null=True *)
  status : ApprovalStatus;
  comments : string;
  acted_at : option Z }.

Definition default_status : ApprovalStatus := A_PENDING.

Definition set_flow_step (s : option nat) (a : t) : t :=
  mk (expense a) (approver a) s (status a) (comments a) (acted_at a).
End ExpenseApproval.

#[global] Instance Role_eq_dec : EqDecision Role.
Proof. solve_decision. Defined.
#[global] Instance RuleType_eq_dec : EqDecision RuleType.
Proof. solve_decision. Defined.
#[global] Instance ExpenseStatus_eq_dec : EqDecision ExpenseStatus.
Proof. solve_decision. Defined.
#[global] Instance ApprovalStatus_eq_dec : EqDecision ApprovalStatus.
Proof. solve_decision. Defined.

(* ===================================================================== *)
(** ** The database                                                       *)
(* ===================================================================== *)

(** One table per model, keyed by primary key. *)
Record DB := mkDB {
  companies : gmap nat Company.t;
  departments : gmap nat Department.t;
  users : gmap nat User.t;
  approval_rules : gmap nat ApprovalRule.t;
  approval_flows : gmap nat ApprovalFlow.t;
  flow_steps : gmap nat FlowStep.t;
  expenses : gmap nat Expense.t;
  expense_approvals : gmap nat ExpenseApproval.t }.

Definition with_companies (x : gmap nat Company.t) (db : DB) : DB :=
  mkDB x (departments db) (users db) (approval_rules db) (approval_flows db)
       (flow_steps db) (expenses db) (expense_approvals db).
Definition with_departments (x : gmap nat Department.t) (db : DB) : DB :=
  mkDB (companies db) x (users db) (approval_rules db) (approval_flows db)
       (flow_steps db) (expenses db) (expense_approvals db).
Definition with_users (x : gmap nat User.t) (db : DB) : DB :=
  mkDB (companies db) (departments db) x (approval_rules db) (approval_flows db)
       (flow_steps db) (expenses db) (expense_approvals db).
Definition with_approval_rules (x : gmap nat ApprovalRule.t) (db : DB) : DB :=
  mkDB (companies db) (departments db) (users db) x (approval_flows db)
       (flow_steps db) (expenses db) (expense_approvals db).
Definition with_approval_flows (x : gmap nat ApprovalFlow.t) (db : DB) : DB :=
  mkDB (companies db) (departments db) (users db) (approval_rules db) x
       (flow_steps db) (expenses db) (expense_approvals db).
Definition with_flow_steps (x : gmap nat FlowStep.t) (db : DB) : DB :=
  mkDB (companies db) (departments db) (users db) (approval_rules db)
       (approval_flows db) x (expenses db) (expense_approvals db).
Definition with_expenses (x : gmap nat Expense.t) (db : DB) : DB :=
  mkDB (companies db) (departments db) (users db) (approval_rules db)
       (approval_flows db) (flow_steps db) x (expense_approvals db).
Definition with_expense_approvals (x : gmap nat ExpenseApproval.t) (db : DB) : DB :=
  mkDB (companies db) (departments db) (users db) (approval_rules db)
       (approval_flows db) (flow_steps db) (expenses db) x.

Definition empty_db : DB := mkDB ∅ ∅ ∅ ∅ ∅ ∅ ∅ ∅.

(** The primary key an [INSERT] gives a new row: one more than the largest
    key in use (an auto-increment column). *)
Definition fresh_pk {A} (tbl : gmap nat A) : nat :=
  S (max_list (map_to_list tbl).*1).

(* ===================================================================== *)
(** ** Deletion: the [on_delete] policies                                 *)
(* ===================================================================== *)

(** Django's deletion collects the rows to delete, follows every foreign
    key that points at them, and applies the key's policy: [CASCADE]
    deletes the referring rows (and recurs on them), [SET_NULL] keeps them
    and stores NULL in the referring column.  Each function below deletes
    the rows of one table whose keys are in [gone]. *)

(** [on_delete=CASCADE] / the deleted rows themselves: the keys of the
    rows that satisfy [refers], and the table without them. *)
Definition referring {A} (refers : A → bool) (tbl : gmap nat A) : gset nat :=
  dom (filter (λ kv, refers kv.2 = true) tbl).

Definition drop_rows {A} (gone : gset nat) (tbl : gmap nat A) : gmap nat A :=
  filter (λ kv, kv.1 ∉ gone) tbl.

(** [on_delete=SET_NULL]: every row that [refers] is rewritten by [clear]. *)
Definition set_null {A} (refers : A → bool) (clear : A → A)
    (tbl : gmap nat A) : gmap nat A :=
  (λ r, if refers r then clear r else r) <$> tbl.

Definition points_at (gone : gset nat) (fk : nat) : bool :=
  bool_decide (fk ∈ gone).

Definition points_at_opt (gone : gset nat) (fk : option nat) : bool :=
  match fk with
  | Some k => bool_decide (k ∈ gone)
  | None => false
  end.

(** [ExpenseApproval]: nothing refers to it. *)
Definition delete_ExpenseApprovals (gone : gset nat) (db : DB) : DB :=
  with_expense_approvals (drop_rows gone (expense_approvals db)) db.

(** [FlowStep]: [ExpenseApproval.flow_step] is [SET_NULL]. *)
Definition delete_FlowSteps (gone : gset nat) (db : DB) : DB :=
  let db := with_expense_approvals
              (set_null (λ a, points_at_opt gone (ExpenseApproval.flow_step a))
                        (ExpenseApproval.set_flow_step None)
                        (expense_approvals db)) db in
  with_flow_steps (drop_rows gone (flow_steps db)) db.

(** [Expense]: [ExpenseApproval.expense] is [CASCADE]. *)
Definition delete_Expenses (gone : gset nat) (db : DB) : DB :=
  let db := delete_ExpenseApprovals
              (referring (λ a, points_at gone (ExpenseApproval.expense a))
                         (expense_approvals db)) db in
  with_expenses (drop_rows gone (expenses db)) db.

(** [User]: [FlowStep.approver], [Expense.employee] and
    [ExpenseApproval.approver] are [CASCADE]; [User.manager] and
    [ApprovalRule.specific_approver] are [SET_NULL]. *)
Definition delete_Users (gone : gset nat) (db : DB) : DB :=
  let db := delete_FlowSteps
              (referring (λ s, points_at gone (FlowStep.approver s))
                         (flow_steps db)) db in
  let db := delete_Expenses
              (referring (λ e, points_at gone (Expense.employee e))
                         (expenses db)) db in
  let db := delete_ExpenseApprovals
              (referring (λ a, points_at gone (ExpenseApproval.approver a))
                         (expense_approvals db)) db in
  let db := with_approval_rules
              (set_null (λ r, points_at_opt gone (ApprovalRule.specific_approver r))
                        (ApprovalRule.set_specific_approver None)
                        (approval_rules db)) db in
  let db := with_users
              (set_null (λ u, points_at_opt gone (User.manager u))
                        (User.set_manager None)
                        (users db)) db in
  with_users (drop_rows gone (users db)) db.

(** [ApprovalRule]: [ApprovalFlow.rule] and [Expense.approval_rule] are
    [SET_NULL]. *)
Definition delete_ApprovalRules (gone : gset nat) (db : DB) : DB :=
  let db := with_approval_flows
              (set_null (λ f, points_at_opt gone (ApprovalFlow.rule f))
                        (ApprovalFlow.set_rule None)
                        (approval_flows db)) db in
  let db := with_expenses
              (set_null (λ e, points_at_opt gone (Expense.approval_rule e))
                        (Expense.set_approval_rule None)
                        (expenses db)) db in
  with_approval_rules (drop_rows gone (approval_rules db)) db.

(** [ApprovalFlow]: [FlowStep.flow] is [CASCADE]; [Expense.flow] is
    [SET_NULL]. *)
Definition delete_ApprovalFlows (gone : gset nat) (db : DB) : DB :=
  let db := delete_FlowSteps
              (referring (λ s, points_at gone (FlowStep.flow s))
                         (flow_steps db)) db in
  let db := with_expenses
              (set_null (λ e, points_at_opt gone (Expense.flow e))
                        (Expense.set_flow None)
                        (expenses db)) db in
  with_approval_flows (drop_rows gone (approval_flows db)) db.

(** [Department]: [User.department] and [ApprovalFlow.department] are
    [SET_NULL]. *)
Definition delete_Departments (gone : gset nat) (db : DB) : DB :=
  let db := with_users
              (set_null (λ u, points_at_opt gone (User.department u))
                        (User.set_department None)
                        (users db)) db in
  let db := with_approval_flows
              (set_null (λ f, points_at_opt gone (ApprovalFlow.department f))
                        (ApprovalFlow.set_department None)
                        (approval_flows db)) db in
  with_departments (drop_rows gone (departments db)) db.

(** [Company]: [Department.company], [User.company],
    [ApprovalRule.company] and [ApprovalFlow.company] are [CASCADE]. *)
Definition delete_Companies (gone : gset nat) (db : DB) : DB :=
  let db := delete_Departments
              (referring (λ d, points_at gone (Department.company d))
                         (departments db)) db in
  let db := delete_Users
              (referring (λ u, points_at_opt gone (User.company u))
                         (users db)) db in
  let db := delete_ApprovalRules
              (referring (λ r, points_at gone (ApprovalRule.company r))
                         (approval_rules db)) db in
  let db := delete_ApprovalFlows
              (referring (λ f, points_at gone (ApprovalFlow.company f))
                         (approval_flows db)) db in
  with_companies (drop_rows gone (companies db)) db.

(** [instance.delete()] on one row. *)
Definition delete_User (pk : nat) : DB → DB := delete_Users {[ pk ]}.
Definition delete_FlowStep (pk : nat) : DB → DB := delete_FlowSteps {[ pk ]}.
Definition delete_Expense (pk : nat) : DB → DB := delete_Expenses {[ pk ]}.
Definition delete_ApprovalRule (pk : nat) : DB → DB := delete_ApprovalRules {[ pk ]}.
Definition delete_ApprovalFlow (pk : nat) : DB → DB := delete_ApprovalFlows {[ pk ]}.
Definition delete_Department (pk : nat) : DB → DB := delete_Departments {[ pk ]}.
Definition delete_Company (pk : nat) : DB → DB := delete_Companies {[ pk ]}.

(* ===================================================================== *)
(** ** Saving a [User] and the [post_save] receiver                       *)
(* ===================================================================== *)

(** The values the receiver reads off the instance: a Python string or
    [None].  [truthy] is Python's truth test on them. *)
Inductive PyVal := PyNone | PyStr (s : string).

Definition truthy (v : PyVal) : bool :=
  match v with
  | PyNone => false
  | PyStr EmptyString => false
  | PyStr _ => true
  end.

Definition py_str (v : PyVal) : string :=
  match v with
  | PyNone => EmptyString
  | PyStr s => s
  end.

(** A [User] object in memory: its primary key ([None] before the first
    save), its model fields, and the attributes set on the object beside
    them (the instance's [__dict__]), which [save] does not persist. *)
Module UserInstance.
Record t := mk {
  pk : option nat;
  fields : User.t;
  attrs : gmap string PyVal }.

Definition set_pk (k : option nat) (i : t) : t := mk k (fields i) (attrs i).
Definition set_company (c : option nat) (i : t) : t :=
  mk (pk i) (User.set_company c (fields i)) (attrs i).
End UserInstance.

(** [getattr(instance, name, default)] *)
Definition getattr (instance : UserInstance.t) (name : string)
    (default_value : PyVal) : PyVal :=
  default default_value (UserInstance.attrs instance !! name).

(** [Company.objects.create(...)]: inserts the row under a new primary key
    and returns the key.  Its own [post_save] has [sender=Company], so the
    receiver below, registered for [sender=User], does not run. *)
Definition Company_objects_create (now : Z)
    (name country currency_code currency_symbol : string) (db : DB)
    : nat * DB :=
  let pk := fresh_pk (companies db) in
  (pk, with_companies
         (<[pk := Company.mk name country currency_code currency_symbol now]>
            (companies db)) db).

(** The receiver.  It calls [instance.save()], which sends [post_save]
    again; [save] is the function to call for that. *)
Definition create_company_for_admin
    (save : UserInstance.t → DB → option (UserInstance.t * DB))
    (now : Z) (instance : UserInstance.t) (created : bool) (db : DB)
    : option (UserInstance.t * DB) :=
  if created
     && bool_decide (User.role (UserInstance.fields instance) = ADMIN)
     && bool_decide (User.company (UserInstance.fields instance) = None)
  then
    let company_name := getattr instance "_company_name" PyNone in
    let country := getattr instance "_country" PyNone in
    let currency_code := getattr instance "_currency_code" PyNone in
    let currency_symbol := getattr instance "_currency_symbol" PyNone in
    if truthy company_name && truthy country
       && truthy currency_code && truthy currency_symbol
    then
      let '(company, db) :=
        Company_objects_create now (py_str company_name) (py_str country)
          (py_str currency_code) (py_str currency_symbol) db in
      let instance := UserInstance.set_company (Some company) instance in
      save instance db
    else Some (instance, db)
  else Some (instance, db).

(** [User.save()]: an insert when the object has no primary key or its key
    is not in the table ([created = True]), an update otherwise; then
    [post_save] is sent to the receiver.  The receiver saves again, so the
    two are mutually recursive; [fuel] bounds the nesting. *)
Fixpoint User_save (fuel : nat) (now : Z) (instance : UserInstance.t)
    (db : DB) : option (UserInstance.t * DB) :=
  match fuel with
  | O => None
  | S fuel =>
      let '(created, pk) :=
        match UserInstance.pk instance with
        | Some k => (bool_decide (users db !! k = None), k)
        | None => (true, fresh_pk (users db))
        end in
      let db := with_users (<[pk := UserInstance.fields instance]> (users db)) db in
      let instance := UserInstance.set_pk (Some pk) instance in
      create_company_for_admin (User_save fuel now) now instance created db
  end.

(** Whether [save] will report [created=True] for this object. *)
Definition is_creation (instance : UserInstance.t) (db : DB) : bool :=
  match UserInstance.pk instance with
  | Some k => bool_decide (users db !! k = None)
  | None => true
  end.

(** A provisioning attribute is present and non-empty. *)
Definition provided (instance : UserInstance.t) (name : string) (s : string) : Prop :=
  UserInstance.attrs instance !! name = Some (PyStr s) ∧ s ≠ EmptyString.

(** All four provisioning attributes are present and non-empty. *)
Definition company_requested (instance : UserInstance.t)
    (name country code symbol : string) : Prop :=
  provided instance "_company_name" name
  ∧ provided instance "_country" country
  ∧ provided instance "_currency_code" code
  ∧ provided instance "_currency_symbol" symbol.

(** The condition under which the receiver provisions a company. *)
Definition provisions (instance : UserInstance.t) (db : DB) : Prop :=
  is_creation instance db = true
  ∧ User.role (UserInstance.fields instance) = ADMIN
  ∧ User.company (UserInstance.fields instance) = None
  ∧ ∃ name country code symbol, company_requested instance name country code symbol.

(** The primary key the saved row is stored under. *)
Definition saved_pk (instance : UserInstance.t) (db : DB) : nat :=
  match UserInstance.pk instance with
  | Some k => k
  | None => fresh_pk (users db)
  end.

(** The invariant the specification states for [ApprovalRule]. *)
Definition rule_fields_match (r : ApprovalRule.t) : Prop :=
  (ApprovalRule.minimum_percentage r ≠ None
     ↔ ApprovalRule.rule_type r = PERCENTAGE ∨ ApprovalRule.rule_type r = HYBRID)
  ∧ (ApprovalRule.specific_approver r ≠ None
     ↔ ApprovalRule.rule_type r = SPECIFIC ∨ ApprovalRule.rule_type r = HYBRID).

(** [ApprovalRule.objects.create(...)]: [rule_type] has no default and is
    not nullable; both settings are nullable and default to [None]; no
    validation relates them. *)
Definition ApprovalRule_objects_create (company : nat) (name : string)
    (rule_type : RuleType) (minimum_percentage : option Z)
    (specific_approver : option nat) (is_active : option bool) (db : DB)
    : nat * DB :=
  let pk := fresh_pk (approval_rules db) in
  (pk, with_approval_rules
         (<[pk := ApprovalRule.mk company name rule_type minimum_percentage
                    specific_approver
                    (default ApprovalRule.default_is_active is_active)]>
            (approval_rules db)) db).

(* ===================================================================== *)
(** ** The approval engine                                                *)
(* ===================================================================== *)

(** The repository declares the schema only: the rule evaluator, the flow
    resolver and the approval state machine have no source.  The
    definitions of this module follow the text of the specification
    (sections 4.1 to 4.3, 5, 6 and 7), sentence by sentence, over the tables
    declared above. *)
Module Engine.

(** Modelled from the spec: the error taxonomy of section 7. *)
Inductive Error :=
| NoMatchingFlow | AmbiguousFlow | NoManagerAssigned | EmptyFlow
| InvalidState | UnknownApproval | FlowExhausted.

(** Modelled from the spec: the evaluator's output. *)
Inductive Verdict := Pending | Approved | Rejected.

(** Modelled from the spec: the outcome an approver records. *)
Inductive Outcome := O_APPROVED | O_REJECTED.

#[global] Instance Outcome_eq_dec : EqDecision Outcome.
Proof. solve_decision. Defined.
#[global] Instance Verdict_eq_dec : EqDecision Verdict.
Proof. solve_decision. Defined.

(** *** 4.2 Rule Evaluator *)

(** Modelled from the spec: one recorded decision, as the evaluator sees
    it: who decided, the outcome (PENDING rows are excluded), and whether
    the decision's flow step is high-priority (false when the step has
    been deleted since). *)
Record StepDecision := mkDecision {
  d_approver : nat;
  d_outcome : Outcome;
  d_high_priority : bool }.

(** Modelled from the spec: the rule with exactly the fields of its type
    (section 9: [Percentage{threshold} | Specific{approver} |
    Hybrid{threshold, approver}]). *)
Inductive RuleSpec :=
| Percentage (threshold : Z)
| Specific (approver : nat)
| Hybrid (threshold : Z) (approver : nat).

(** Modelled from the spec: the [RuleSpec] of a stored rule, read off the
    fields its type requires; a row that lacks one of them has none. *)
Definition rule_spec (r : ApprovalRule.t) : option RuleSpec :=
  match ApprovalRule.rule_type r,
        ApprovalRule.minimum_percentage r,
        ApprovalRule.specific_approver r with
  | PERCENTAGE, Some p, _ => Some (Percentage p)
  | SPECIFIC, _, Some a => Some (Specific a)
  | HYBRID, Some p, Some a => Some (Hybrid p a)
  | _, _, _ => None
  end.

(** Modelled from the spec: [approved_count], the count of APPROVED
    decisions. *)
Definition approved_count (decisions : list StepDecision) : Z :=
  Z.of_nat (length (filter (λ d, d_outcome d = O_APPROVED) decisions)).

(** Modelled from the spec: some decision is REJECTED. *)
Definition any_rejected (decisions : list StepDecision) : bool :=
  existsb (λ d, bool_decide (d_outcome d = O_REJECTED)) decisions.

(** Modelled from the spec: [who] appears among the decisions with
    outcome [o]. *)
Definition decided_by (who : nat) (o : Outcome) (decisions : list StepDecision) : bool :=
  existsb (λ d, bool_decide (d_approver d = who) && bool_decide (d_outcome d = o))
          decisions.

(** Modelled from the spec: [count / total * 100], a rational number. *)
Definition percent (count total : Z) : Q :=
  (inject_Z count / inject_Z total * inject_Z 100)%Q.

(** Modelled from the spec: the SPECIFIC rule.  Approved once the specific
    approver appears with APPROVED, Rejected once with REJECTED, otherwise
    Pending. *)
Definition specific_verdict (approver : nat) (decisions : list StepDecision) : Verdict :=
  if decided_by approver O_APPROVED decisions then Approved
  else if decided_by approver O_REJECTED decisions then Rejected
  else Pending.

(** Modelled from the spec: the PERCENTAGE rule.  Approved once
    [approved_count / total * 100 >= minimum_percentage]; Rejected once
    [(approved_count + remaining_unactivated_steps) / total * 100 <
    minimum_percentage]; otherwise Pending. *)
Definition percentage_verdict (minimum_percentage : Z)
    (decisions : list StepDecision) (total_steps_activated total : Z) : Verdict :=
  let remaining_unactivated_steps := total - total_steps_activated in
  if Qle_bool (inject_Z minimum_percentage)
              (percent (approved_count decisions) total)
  then Approved
  else if negb (Qle_bool (inject_Z minimum_percentage)
                  (percent (approved_count decisions + remaining_unactivated_steps)
                           total))
  then Rejected
  else Pending.

(** Modelled from the spec: the HYBRID rule.  Approved if either sub-rule
    yields Approved, Rejected only if both yield Rejected. *)
Definition hybrid_verdict (s p : Verdict) : Verdict :=
  match s, p with
  | Approved, _ | _, Approved => Approved
  | Rejected, Rejected => Rejected
  | _, _ => Pending
  end.

(** Modelled from the spec: no rule.  Approved once all steps are
    APPROVED, Rejected once any step is REJECTED. *)
Definition unanimous_verdict (decisions : list StepDecision) (total : Z) : Verdict :=
  if approved_count decisions =? total then Approved
  else if any_rejected decisions then Rejected
  else Pending.

(** Modelled from the spec: the verdict of the rule itself. *)
Definition rule_verdict (rule : option RuleSpec) (decisions : list StepDecision)
    (total_steps_activated total : Z) : Verdict :=
  match rule with
  | None => unanimous_verdict decisions total
  | Some (Percentage p) =>
      percentage_verdict p decisions total_steps_activated total
  | Some (Specific a) => specific_verdict a decisions
  | Some (Hybrid p a) =>
      hybrid_verdict (specific_verdict a decisions)
                     (percentage_verdict p decisions total_steps_activated total)
  end.

(** Modelled from the spec: an APPROVED decision of a high-priority
    step. *)
Definition high_priority_approved (decisions : list StepDecision) : bool :=
  existsb (λ d, bool_decide (d_outcome d = O_APPROVED) && d_high_priority d)
          decisions.

(** Modelled from the spec: [evaluate(rule, decisions_so_far,
    total_steps_activated)]; [total], the number of steps of the flow, is
    the fourth argument.  A high-priority step's APPROVED decision
    overrides the rule. *)
Definition evaluate (rule : option RuleSpec) (decisions_so_far : list StepDecision)
    (total_steps_activated total : Z) : Verdict :=
  if high_priority_approved decisions_so_far then Approved
  else rule_verdict rule decisions_so_far total_steps_activated total.

(** *** 4.1 Flow Resolver *)

(** Modelled from the spec: the amount window [[min_amount, max_amount]]
    contains the amount; a null bound is open. *)
Definition window_contains (f : ApprovalFlow.t) (amount : Z) : bool :=
  match ApprovalFlow.min_amount f with Some lo => lo <=? amount | None => true end
  && match ApprovalFlow.max_amount f with Some hi => amount <=? hi | None => true end.

(** Modelled from the spec: the flow's department is null or the
    employee's. *)
Definition department_matches (f : ApprovalFlow.t) (employee : User.t) : bool :=
  match ApprovalFlow.department f with
  | None => true
  | Some d => bool_decide (User.department employee = Some d)
  end.

(** Modelled from the spec: the width [max_amount - min_amount] of the
    window; [None] is infinity. *)
Definition window_width (f : ApprovalFlow.t) : option Z :=
  match ApprovalFlow.min_amount f, ApprovalFlow.max_amount f with
  | Some lo, Some hi => Some (hi - lo)
  | _, _ => None
  end.

Definition width_le (a b : option Z) : bool :=
  match a, b with
  | _, None => true
  | None, Some _ => false
  | Some x, Some y => x <=? y
  end.

(** Modelled from the spec: [resolve(expense)].  The company's flows whose
    department is null or the employee's and whose window contains the
    converted amount; a department match wins over company-wide flows;
    then the narrowest window wins; a remaining tie is ambiguous. *)
Definition resolve (e : Expense.t) (db : DB) : Error + nat :=
  match users db !! Expense.employee e with
  | None => inl NoMatchingFlow
  | Some employee =>
      let candidates :=
        map_to_list
          (filter (λ kv : nat * ApprovalFlow.t,
                     User.company employee = Some (ApprovalFlow.company kv.2)
                     ∧ department_matches kv.2 employee = true
                     ∧ window_contains kv.2 (Expense.converted_amount e) = true)
                  (approval_flows db)) in
      let specific :=
        filter (λ kv : nat * ApprovalFlow.t, ApprovalFlow.department kv.2 ≠ None)
               candidates in
      let pool := match specific with [] => candidates | _ => specific end in
      let narrowest :=
        filter (λ kv : nat * ApprovalFlow.t,
                  forallb (λ other : nat * ApprovalFlow.t,
                             width_le (window_width kv.2) (window_width other.2))
                          pool = true)
               pool in
      match narrowest with
      | [] => inl NoMatchingFlow
      | [kv] => inr kv.1
      | _ => inl AmbiguousFlow
      end
  end.

(** Modelled from the spec: one element of the materialized sequence: the
    step's key, its order and the user who approves it. *)
Record MStep := mkMStep {
  ms_step : nat;
  ms_order : Z;
  ms_approver : nat }.

Definition step_le (a b : nat * FlowStep.t) : Prop :=
  FlowStep.order a.2 ≤ FlowStep.order b.2.

#[global] Instance step_le_dec a b : Decision (step_le a b).
Proof. unfold step_le. apply _. Defined.

(** Modelled from the spec: the steps of a flow in ascending [order]. *)
Definition steps_of (flow : nat) (db : DB) : list (nat * FlowStep.t) :=
  merge_sort step_le
    (map_to_list (filter (λ kv : nat * FlowStep.t, FlowStep.flow kv.2 = flow)
                         (flow_steps db))).

(** Modelled from the spec: each step resolves to its fixed approver, a
    manager step to the employee's manager. *)
Fixpoint resolve_approvers (manager : option nat) (steps : list (nat * FlowStep.t))
    : Error + list MStep :=
  match steps with
  | [] => inr []
  | (k, s) :: rest =>
      match (if FlowStep.is_manager_step s then manager
             else Some (FlowStep.approver s)) with
      | None => inl NoManagerAssigned
      | Some who =>
          match resolve_approvers manager rest with
          | inl err => inl err
          | inr ms => inr (mkMStep k (FlowStep.order s) who :: ms)
          end
      end
  end.

(** Modelled from the spec: [materialize_steps(flow, expense)].  EmptyFlow
    when the flow has no step; a manager step resolves to the employee's
    manager, NoManagerAssigned when there is none. *)
Definition materialize_steps (flow : option nat) (e : Expense.t) (db : DB)
    : Error + list MStep :=
  match (match flow with Some f => steps_of f db | None => [] end) with
  | [] => inl EmptyFlow
  | steps =>
      resolve_approvers (users db !! Expense.employee e ≫= User.manager) steps
  end.

(** *** 4.3 Approval State Machine *)

(** Modelled from the spec: the approvals of one expense, one row per
    step activated so far. *)
Definition approvals_of (expense : nat) (db : DB) : list (nat * ExpenseApproval.t) :=
  map_to_list (filter (λ kv : nat * ExpenseApproval.t,
                         ExpenseApproval.expense kv.2 = expense)
                      (expense_approvals db)).

(** The flow step an approval refers to, and its order. *)
Definition step_of (a : ExpenseApproval.t) (db : DB) : option FlowStep.t :=
  ExpenseApproval.flow_step a ≫= λ s, flow_steps db !! s.

Definition step_order (a : ExpenseApproval.t) (db : DB) : option Z :=
  FlowStep.order <$> step_of a db.

(** Modelled from the spec: the decision an approval row stands for. *)
Definition decision_of (db : DB) (a : ExpenseApproval.t) : option StepDecision :=
  let hp := match step_of a db with
            | Some s => FlowStep.is_high_priority s
            | None => false
            end in
  match ExpenseApproval.status a with
  | A_PENDING => None
  | A_APPROVED => Some (mkDecision (ExpenseApproval.approver a) O_APPROVED hp)
  | A_REJECTED => Some (mkDecision (ExpenseApproval.approver a) O_REJECTED hp)
  end.

(** Modelled from the spec: [decisions_so_far], the APPROVED and REJECTED
    outcomes recorded for the expense. *)
Definition decisions_so_far (expense : nat) (db : DB) : list StepDecision :=
  omap (λ kv, decision_of db kv.2) (approvals_of expense db).

(** Modelled from the spec: the orders of the steps activated so far for
    the expense. *)
Definition activated_orders (expense : nat) (db : DB) : list Z :=
  omap (λ kv, step_order kv.2 db) (approvals_of expense db).

(** Modelled from the spec: the next step in order: the first step of the
    ascending sequence whose order is above every activated one (the step
    of order 1 when nothing is activated yet). *)
Definition next_step (activated : list Z) (steps : list MStep) : option MStep :=
  find (λ s, forallb (λ o, o <? ms_order s) activated) steps.

(** Modelled from the spec: the rule to pin at submission: the flow's rule,
    unless it is inactive. *)
Definition rule_to_pin (flow : nat) (db : DB) : option nat :=
  r ← approval_flows db !! flow ≫= ApprovalFlow.rule;
  row ← approval_rules db !! r;
  if ApprovalRule.is_active row then Some r else None.

(** Modelled from the spec: the rule the evaluator is given: the one pinned
    on the expense; no rule when none is pinned, when the row is gone or
    when it lacks a field of its type. *)
Definition pinned_rule (e : Expense.t) (db : DB) : option RuleSpec :=
  r ← Expense.approval_rule e; row ← approval_rules db !! r; rule_spec row.

Definition status_of_outcome (o : Outcome) : ApprovalStatus :=
  match o with O_APPROVED => A_APPROVED | O_REJECTED => A_REJECTED end.

(** Modelled from the spec: operations run against the database one write
    after the other; a failure stops the run and leaves the writes made so
    far in place. *)
Definition M (A : Type) : Type := DB → DB * (Error + A).

#[global] Instance M_ret : MRet M := λ A x db, (db, inr x).
#[global] Instance M_bind : MBind M := λ A B f m db,
  match m db with
  | (db', inr x) => f x db'
  | (db', inl err) => (db', inl err)
  end.

Definition fail {A} (err : Error) : M A := λ db, (db, inl err).
Definition read {A} (f : DB → A) : M A := λ db, (db, inr (f db)).
Definition write (f : DB → DB) : M unit := λ db, (f db, inr tt).
Definition lift {A} (f : DB → Error + A) : M A := λ db, (db, f db).
Definition require (b : bool) (err : Error) : M unit :=
  if b then mret tt else fail err.
Definition from_option {A} (o : option A) (err : Error) : M A :=
  match o with Some x => mret x | None => fail err end.

Definition insert_approval (a : ExpenseApproval.t) (db : DB) : DB :=
  with_expense_approvals
    (<[fresh_pk (expense_approvals db) := a]> (expense_approvals db)) db.

Definition update_expense (k : nat) (f : Expense.t → Expense.t) (db : DB) : DB :=
  with_expenses (alter f k (expenses db)) db.

Definition update_approval (k : nat) (f : ExpenseApproval.t → ExpenseApproval.t)
    (db : DB) : DB :=
  with_expense_approvals (alter f k (expense_approvals db)) db.

(** Modelled from the spec: activating a step creates its approval as
    PENDING. *)
Definition activate (expense : nat) (s : MStep) : M unit :=
  write (insert_approval
           (ExpenseApproval.mk expense (ms_approver s) (Some (ms_step s))
              ExpenseApproval.default_status EmptyString None)).

(** Modelled from the spec: [submit(expense)], the steps of section 4.3 in
    the order of the text. *)
Definition submit_body (expense : nat) : M unit :=
  e ← read (λ db, expenses db !! expense) ≫= λ o, from_option o InvalidState;
  _ ← require (bool_decide (Expense.status e = DRAFT)) InvalidState;
  flow ← lift (resolve e);
  steps ← lift (materialize_steps (Some flow) e);
  first ← from_option (next_step [] steps) EmptyFlow;
  _ ← activate expense first;
  rule ← read (rule_to_pin flow);
  write (update_expense expense
           (λ e, Expense.set_status PENDING
                   (Expense.set_flow (Some flow)
                      (Expense.set_approval_rule rule e)))).

(** Modelled from the spec: recording a decision sets the approval's
    status, comments and [acted_at]. *)
Definition decide_approval (o : Outcome) (comments : string) (now : Z)
    (a : ExpenseApproval.t) : ExpenseApproval.t :=
  ExpenseApproval.mk (ExpenseApproval.expense a) (ExpenseApproval.approver a)
    (ExpenseApproval.flow_step a) (status_of_outcome o) comments (Some now).

(** Modelled from the spec: [total], the number of steps of the pinned
    flow. *)
Definition flow_total (e : Expense.t) (db : DB) : Z :=
  match Expense.flow e with
  | Some f => Z.of_nat (length (steps_of f db))
  | None => 0
  end.

(** Modelled from the spec: [record_decision(expense, approval_id,
    outcome, comments)], the steps of section 4.3 in the order of the
    text: the decision is written, then the rule is evaluated, then the
    expense is finalized or the next step is activated. *)
Definition record_decision_body (expense approval_id : nat) (outcome : Outcome)
    (comments : string) (now : Z) : M unit :=
  e ← read (λ db, expenses db !! expense) ≫= λ o, from_option o InvalidState;
  _ ← require (bool_decide (Expense.status e = PENDING)) InvalidState;
  a ← read (λ db, expense_approvals db !! approval_id)
        ≫= λ o, from_option o UnknownApproval;
  _ ← require (bool_decide (ExpenseApproval.expense a = expense)) UnknownApproval;
  _ ← require (bool_decide (ExpenseApproval.status a = A_PENDING)) InvalidState;
  _ ← write (update_approval approval_id (decide_approval outcome comments now));
  verdict ← read (λ db, evaluate (pinned_rule e db) (decisions_so_far expense db)
                          (Z.of_nat (length (approvals_of expense db)))
                          (flow_total e db));
  match verdict with
  | Approved => write (update_expense expense (Expense.set_status APPROVED))
  | Rejected => write (update_expense expense (Expense.set_status REJECTED))
  | Pending =>
      steps ← lift (materialize_steps (Expense.flow e) e);
      activated ← read (activated_orders expense);
      next ← from_option (next_step activated steps) FlowExhausted;
      activate expense next
  end.

(** Modelled from the spec: sections 5 and 7: an operation runs as one
    transaction; when it fails, its writes are undone. *)
Definition atomic {A} (m : M A) : M A := λ db,
  match m db with
  | (db', inr x) => (db', inr x)
  | (_, inl err) => (db, inl err)
  end.

Definition submit (expense : nat) : M unit := atomic (submit_body expense).

Definition record_decision (expense approval_id : nat) (outcome : Outcome)
    (comments : string) (now : Z) : M unit :=
  atomic (record_decision_body expense approval_id outcome comments now).

(** Modelled from the spec: the calls of the inbound interface (section 6),
    and the states they reach. *)
Inductive Call :=
| Submit (expense : nat)
| RecordDecision (expense approval_id : nat) (outcome : Outcome)
                 (comments : string) (now : Z).

Definition run (c : Call) : M unit :=
  match c with
  | Submit e => submit e
  | RecordDecision e a o c now => record_decision e a o c now
  end.

Definition after (c : Call) (db : DB) : DB := (run c db).1.

Inductive reachable (db0 : DB) : DB → Prop :=
| reachable_start : reachable db0 db0
| reachable_call db c : reachable db0 db → reachable db0 (after c db).

(** The states the three successful outcomes of a call lead to. *)
Definition activated (expense : nat) (next : MStep) (db : DB) : DB :=
  insert_approval
    (ExpenseApproval.mk expense (ms_approver next) (Some (ms_step next))
       A_PENDING EmptyString None) db.

Definition submitted (expense flow : nat) (first : MStep) (db : DB) : DB :=
  update_expense expense
    (λ e, Expense.set_status PENDING
            (Expense.set_flow (Some flow)
               (Expense.set_approval_rule (rule_to_pin flow db) e)))
    (activated expense first db).

Definition decided (approval_id : nat) (o : Outcome) (comments : string) (now : Z)
    (db : DB) : DB :=
  update_approval approval_id (decide_approval o comments now) db.

(** The successful calls as a step relation: what a call that does not
    fail has checked, and the state it leaves. *)
Inductive transition (db : DB) : Call → DB → Prop :=
| transition_submit e erow flow steps first :
    expenses db !! e = Some erow →
    Expense.status erow = DRAFT →
    resolve erow db = inr flow →
    materialize_steps (Some flow) erow db = inr steps →
    next_step [] steps = Some first →
    transition db (Submit e) (submitted e flow first db)
| transition_final e ak o cm now erow arow s :
    expenses db !! e = Some erow →
    Expense.status erow = PENDING →
    expense_approvals db !! ak = Some arow →
    ExpenseApproval.expense arow = e →
    ExpenseApproval.status arow = A_PENDING →
    s = APPROVED ∨ s = REJECTED →
    transition db (RecordDecision e ak o cm now)
      (update_expense e (Expense.set_status s) (decided ak o cm now db))
| transition_next e ak o cm now erow arow steps next :
    expenses db !! e = Some erow →
    Expense.status erow = PENDING →
    expense_approvals db !! ak = Some arow →
    ExpenseApproval.expense arow = e →
    ExpenseApproval.status arow = A_PENDING →
    materialize_steps (Expense.flow erow) erow (decided ak o cm now db)
      = inr steps →
    next_step (activated_orders e (decided ak o cm now db)) steps = Some next →
    transition db (RecordDecision e ak o cm now)
      (activated e next (decided ak o cm now db)).

(** A DRAFT expense has no approval yet. *)
Definition drafts_unsubmitted (db : DB) : Prop :=
  ∀ k e ak a,
    expenses db !! k = Some e → Expense.status e = DRAFT →
    expense_approvals db !! ak = Some a → ExpenseApproval.expense a ≠ k.

(** Every approval points at a step of the catalog. *)
Definition steps_known (db : DB) : Prop :=
  ∀ ak a, expense_approvals db !! ak = Some a → is_Some (step_order a db).

(** Of two approvals of one expense, the one created first (the smaller
    primary key) is decided and its step has the smaller order. *)
Definition activated_in_order (db : DB) : Prop :=
  ∀ k1 k2 a1 a2,
    expense_approvals db !! k1 = Some a1 →
    expense_approvals db !! k2 = Some a2 →
    ExpenseApproval.expense a1 = ExpenseApproval.expense a2 →
    (k1 < k2)%nat →
    ExpenseApproval.status a1 ≠ A_PENDING
    ∧ ∃ o1 o2, step_order a1 db = Some o1 ∧ step_order a2 db = Some o2 ∧ o1 < o2.

Definition Inv (db : DB) : Prop :=
  drafts_unsubmitted db ∧ steps_known db ∧ activated_in_order db.

(** The number of PENDING approvals of an expense. *)
Definition pending_count (expense : nat) (db : DB) : nat :=
  size (filter (λ kv : nat * ExpenseApproval.t,
                  ExpenseApproval.expense kv.2 = expense
                  ∧ ExpenseApproval.status kv.2 = A_PENDING)
               (expense_approvals db)).

End Engine.

Import Engine.

(* ===================================================================== *)
(** ** Sample data                                                        *)
(* ===================================================================== *)

(** Company "Acme" with three users (the employee 2 reports to the manager
    1; 3 is the CFO), one flow for amounts from 0 to 10000.00 governed by
    [rule] with the steps [steps], and one DRAFT expense of 5000.00. *)
Definition acme (rule : ApprovalRule.t) (steps : gmap nat FlowStep.t) : DB :=
  mkDB {[ 1%nat := Company.mk "Acme" "India" "INR" "Rs" 0 ]}
       ∅
       {[ 1%nat := User.mk "manager" (Some 1%nat) None MANAGER None;
          2%nat := User.mk "employee" (Some 1%nat) None EMPLOYEE (Some 1%nat);
          3%nat := User.mk "cfo" (Some 1%nat) None MANAGER None ]}
       {[ 1%nat := rule ]}
       {[ 1%nat := ApprovalFlow.mk 1 "Travel" "Travel expenses" None
                     (Some 0) (Some 1000000) (Some 1%nat) 0 ]}
       steps
       {[ 1%nat := Expense.create 2 "Taxi" "Travel" 500000 "INR" "Rs"
                     500000 "INR" "Rs" 0 0 None None None None ]}
       ∅.

Definition cfo_rule : ApprovalRule.t :=
  ApprovalRule.mk 1 "CFO decides" SPECIFIC None (Some 3%nat) true.

Definition percentage_rule : ApprovalRule.t :=
  ApprovalRule.mk 1 "Sixty percent" PERCENTAGE (Some 60) None true.

(** The scenario of the specification: manager step, then the CFO. *)
Definition acme_db : DB :=
  acme cfo_rule
    {[ 1%nat := FlowStep.mk 1 1 1 true false;
       2%nat := FlowStep.mk 1 3 2 false false ]}.

Definition acme_submitted : DB := after (Submit 1) acme_db.

Definition acme_manager_approved : DB :=
  after (RecordDecision 1 1 O_APPROVED "ok" 5) acme_submitted.

(** A flow whose only step is the manager's while the rule waits for the
    CFO: the manager's approval leaves the verdict Pending with no step
    left. *)
Definition exhausted_db : DB :=
  after (Submit 1) (acme cfo_rule {[ 1%nat := FlowStep.mk 1 1 1 true false ]}).

(** Five steps under a 60 percent rule; the first step is high-priority. *)
Definition five_step_db : DB :=
  acme percentage_rule
    {[ 1%nat := FlowStep.mk 1 3 1 false true;
       2%nat := FlowStep.mk 1 1 2 false false;
       3%nat := FlowStep.mk 1 1 3 false false;
       4%nat := FlowStep.mk 1 1 4 false false;
       5%nat := FlowStep.mk 1 1 5 false false ]}.

Definition five_step_first_approved : DB :=
  after (RecordDecision 1 1 O_APPROVED "ok" 5) (after (Submit 1) five_step_db).

(** A user who is their own manager. *)
Definition self_managed : User.t :=
  User.mk "founder" None None ADMIN (Some 1%nat).

Definition self_managed_db : DB :=
  with_users {[ 1%nat := self_managed ]} empty_db.

(** A user object as the registration flow prepares it. *)
Definition signup : UserInstance.t :=
  UserInstance.mk None (User.mk "root" None None ADMIN None)
    {[ "_company_name" := PyStr "Acme"; "_country" := PyStr "India";
       "_currency_code" := PyStr "INR"; "_currency_symbol" := PyStr "Rs" ]}.

Ltac unfold_M :=
  cbv beta iota zeta delta
    [mbind M_bind mret M_ret read write lift fail require from_option activate].

(* ===================================================================== *)
(** ** Referential integrity                                              *)
(* ===================================================================== *)

(** Every foreign key [fk] of a row of [src] that is not NULL is the
    primary key of a row of [tgt]. *)
Definition fk_ok {A B} (src : gmap nat A) (fk : A → option nat)
    (tgt : gmap nat B) : Prop :=
  ∀ k r t, src !! k = Some r → fk r = Some t → is_Some (tgt !! t).

(** No foreign key [fk] of a row of [src] points into [gone]. *)
Definition unreferenced {A} (src : gmap nat A) (fk : A → option nat)
    (gone : gset nat) : Prop :=
  ∀ k r t, src !! k = Some r → fk r = Some t → t ∉ gone.

(** The seventeen foreign keys of [models.py]. *)
Record consistent (db : DB) : Prop := mk_consistent {
  Department_company_ok :
    fk_ok (departments db) (λ d, Some (Department.company d)) (companies db);
  User_company_ok : fk_ok (users db) User.company (companies db);
  User_department_ok : fk_ok (users db) User.department (departments db);
  User_manager_ok : fk_ok (users db) User.manager (users db);
  ApprovalRule_company_ok :
    fk_ok (approval_rules db) (λ r, Some (ApprovalRule.company r)) (companies db);
  ApprovalRule_specific_approver_ok :
    fk_ok (approval_rules db) ApprovalRule.specific_approver (users db);
  ApprovalFlow_company_ok :
    fk_ok (approval_flows db) (λ f, Some (ApprovalFlow.company f)) (companies db);
  ApprovalFlow_department_ok :
    fk_ok (approval_flows db) ApprovalFlow.department (departments db);
  ApprovalFlow_rule_ok :
    fk_ok (approval_flows db) ApprovalFlow.rule (approval_rules db);
  FlowStep_flow_ok :
    fk_ok (flow_steps db) (λ s, Some (FlowStep.flow s)) (approval_flows db);
  FlowStep_approver_ok :
    fk_ok (flow_steps db) (λ s, Some (FlowStep.approver s)) (users db);
  Expense_employee_ok :
    fk_ok (expenses db) (λ e, Some (Expense.employee e)) (users db);
  Expense_approval_rule_ok :
    fk_ok (expenses db) Expense.approval_rule (approval_rules db);
  Expense_flow_ok : fk_ok (expenses db) Expense.flow (approval_flows db);
  ExpenseApproval_expense_ok :
    fk_ok (expense_approvals db) (λ a, Some (ExpenseApproval.expense a)) (expenses db);
  ExpenseApproval_approver_ok :
    fk_ok (expense_approvals db) (λ a, Some (ExpenseApproval.approver a)) (users db);
  ExpenseApproval_flow_step_ok :
    fk_ok (expense_approvals db) ExpenseApproval.flow_step (flow_steps db) }.

(** The same, as checks that run. *)
Definition fk_check {A B} (src : gmap nat A) (fk : A → option nat)
    (tgt : gmap nat B) : bool :=
  forallb (λ kr : nat * A,
             match fk kr.2 with
             | Some t => bool_decide (is_Some (tgt !! t))
             | None => true
             end)
          (map_to_list src).

Definition check_integrity (db : DB) : bool :=
  fk_check (departments db) (λ d, Some (Department.company d)) (companies db)
  && fk_check (users db) User.company (companies db)
  && fk_check (users db) User.department (departments db)
  && fk_check (users db) User.manager (users db)
  && fk_check (approval_rules db) (λ r, Some (ApprovalRule.company r)) (companies db)
  && fk_check (approval_rules db) ApprovalRule.specific_approver (users db)
  && fk_check (approval_flows db) (λ f, Some (ApprovalFlow.company f)) (companies db)
  && fk_check (approval_flows db) ApprovalFlow.department (departments db)
  && fk_check (approval_flows db) ApprovalFlow.rule (approval_rules db)
  && fk_check (flow_steps db) (λ s, Some (FlowStep.flow s)) (approval_flows db)
  && fk_check (flow_steps db) (λ s, Some (FlowStep.approver s)) (users db)
  && fk_check (expenses db) (λ e, Some (Expense.employee e)) (users db)
  && fk_check (expenses db) Expense.approval_rule (approval_rules db)
  && fk_check (expenses db) Expense.flow (approval_flows db)
  && fk_check (expense_approvals db) (λ a, Some (ExpenseApproval.expense a)) (expenses db)
  && fk_check (expense_approvals db) (λ a, Some (ExpenseApproval.approver a)) (users db)
  && fk_check (expense_approvals db) ExpenseApproval.flow_step (flow_steps db).

(* ===================================================================== *)
(** ** String representations                                             *)
(* ===================================================================== *)

(** The [__str__] methods.  A method that follows a foreign key reads the
    row it points at; it has no result ([None]) when that row is missing,
    where Django raises [DoesNotExist].  The stored value of a [choices]
    field is its first component; an integer prints in decimal. *)

Definition Role_str (r : Role) : string :=
  match r with ADMIN => "ADMIN" | MANAGER => "MANAGER" | EMPLOYEE => "EMPLOYEE" end.

Definition RuleType_str (t : RuleType) : string :=
  match t with
  | PERCENTAGE => "PERCENTAGE" | SPECIFIC => "SPECIFIC" | HYBRID => "HYBRID"
  end.

Definition ExpenseStatus_str (s : ExpenseStatus) : string :=
  match s with
  | DRAFT => "DRAFT" | PENDING => "PENDING"
  | APPROVED => "APPROVED" | REJECTED => "REJECTED"
  end.

Definition ApprovalStatus_str (s : ApprovalStatus) : string :=
  match s with
  | A_PENDING => "PENDING" | A_APPROVED => "APPROVED" | A_REJECTED => "REJECTED"
  end.

(** [f"{self.name} ({self.currency_symbol}{self.currency_code})"] *)
Definition Company_str (c : Company.t) : string :=
  Company.name c +:+ " (" +:+ Company.currency_symbol c
    +:+ Company.currency_code c +:+ ")".

(** [f"{self.name} ({self.company.name})"] *)
Definition Department_str (db : DB) (d : Department.t) : option string :=
  company ← companies db !! Department.company d;
  Some (Department.name d +:+ " (" +:+ Company.name company +:+ ")").

(** [f" - {self.department.name}" if self.department else ""] *)
Definition dept_suffix (db : DB) (department : option nat) : option string :=
  match department with
  | Some k => d ← departments db !! k; Some (" - " +:+ Department.name d)
  | None => Some EmptyString
  end.

(** [f"{self.username} ({self.role}{dept})"] *)
Definition User_str (db : DB) (u : User.t) : option string :=
  dept ← dept_suffix db (User.department u);
  Some (User.username u +:+ " (" +:+ Role_str (User.role u) +:+ dept +:+ ")").

(** [f"{self.name} ({self.rule_type})"] *)
Definition ApprovalRule_str (r : ApprovalRule.t) : string :=
  ApprovalRule.name r +:+ " (" +:+ RuleType_str (ApprovalRule.rule_type r) +:+ ")".

(** [f"{self.name}{dept}"] *)
Definition ApprovalFlow_str (db : DB) (f : ApprovalFlow.t) : option string :=
  dept ← dept_suffix db (ApprovalFlow.department f);
  Some (ApprovalFlow.name f +:+ dept).

(** [f"Step {self.order} - {self.approver.username}"] *)
Definition FlowStep_str (db : DB) (s : FlowStep.t) : option string :=
  approver ← users db !! FlowStep.approver s;
  Some ("Step " +:+ pretty (FlowStep.order s) +:+ " - " +:+ User.username approver).

(** [f"Expense {self.id} - {self.employee.username} ({self.status})"] *)
Definition Expense_str (db : DB) (id : nat) (e : Expense.t) : option string :=
  employee ← users db !! Expense.employee e;
  Some ("Expense " +:+ pretty id +:+ " - " +:+ User.username employee
          +:+ " (" +:+ ExpenseStatus_str (Expense.status e) +:+ ")").

(** [f"Approval for {self.expense.id} by {self.approver.username} - {self.status}"] *)
Definition ExpenseApproval_str (db : DB) (a : ExpenseApproval.t) : option string :=
  _ ← expenses db !! ExpenseApproval.expense a;
  approver ← users db !! ExpenseApproval.approver a;
  Some ("Approval for " +:+ pretty (ExpenseApproval.expense a) +:+ " by "
          +:+ User.username approver +:+ " - "
          +:+ ApprovalStatus_str (ExpenseApproval.status a)).

(* ===================================================================== *)
(** ** The admin site of [admin.py]                                       *)
(* ===================================================================== *)

(** The admin classes are declarations over field names.  The names are
    resolved against the fields of the models; [User] also has the fields
    [AbstractUser] contributes.  A column that forms do not offer (the
    automatic primary key, an [auto_now_add] timestamp) is
    [Column false]. *)
Module Admin.

Inductive Model :=
| M_Company | M_Department | M_User | M_ApprovalRule | M_ApprovalFlow
| M_FlowStep | M_Expense | M_ExpenseApproval.

#[global] Instance Model_eq_dec : EqDecision Model.
Proof. solve_decision. Defined.

Inductive FieldKind :=
| Column (editable : bool)
| ForeignKey (to : Model)
| ManyToMany.

#[global] Instance FieldKind_eq_dec : EqDecision FieldKind.
Proof. solve_decision. Defined.

Definition fields_of (m : Model) : list (string * FieldKind) :=
  match m with
  | M_Company =>
      [("id", Column false); ("name", Column true); ("country", Column true);
       ("currency_code", Column true); ("currency_symbol", Column true);
       ("created_at", Column false)]
  | M_Department =>
      [("id", Column false); ("company", ForeignKey M_Company);
       ("name", Column true)]
  | M_User =>
      [("id", Column false); ("password", Column true);
       ("last_login", Column true); ("is_superuser", Column true);
       ("username", Column true); ("first_name", Column true);
       ("last_name", Column true); ("email", Column true);
       ("is_staff", Column true); ("is_active", Column true);
       ("date_joined", Column true);
       ("company", ForeignKey M_Company);
       ("department", ForeignKey M_Department);
       ("role", Column true); ("manager", ForeignKey M_User);
       ("groups", ManyToMany); ("user_permissions", ManyToMany)]
  | M_ApprovalRule =>
      [("id", Column false); ("company", ForeignKey M_Company);
       ("name", Column true); ("rule_type", Column true);
       ("minimum_percentage", Column true);
       ("specific_approver", ForeignKey M_User); ("is_active", Column true)]
  | M_ApprovalFlow =>
      [("id", Column false); ("company", ForeignKey M_Company);
       ("name", Column true); ("description", Column true);
       ("department", ForeignKey M_Department);
       ("min_amount", Column true); ("max_amount", Column true);
       ("rule", ForeignKey M_ApprovalRule); ("created_at", Column false)]
  | M_FlowStep =>
      [("id", Column false); ("flow", ForeignKey M_ApprovalFlow);
       ("approver", ForeignKey M_User); ("order", Column true);
       ("is_manager_step", Column true); ("is_high_priority", Column true)]
  | M_Expense =>
      [("id", Column false); ("employee", ForeignKey M_User);
       ("description", Column true); ("category", Column true);
       ("amount", Column true); ("currency_code", Column true);
       ("currency_symbol", Column true); ("converted_amount", Column true);
       ("converted_currency_code", Column true);
       ("converted_currency_symbol", Column true);
       ("expense_date", Column true); ("receipt", Column true);
       ("status", Column true); ("created_at", Column false);
       ("approval_rule", ForeignKey M_ApprovalRule);
       ("flow", ForeignKey M_ApprovalFlow)]
  | M_ExpenseApproval =>
      [("id", Column false); ("expense", ForeignKey M_Expense);
       ("approver", ForeignKey M_User); ("flow_step", ForeignKey M_FlowStep);
       ("status", Column true); ("comments", Column true);
       ("acted_at", Column true)]
  end.

Fixpoint assoc (name : string) (l : list (string * FieldKind)) : option FieldKind :=
  match l with
  | [] => None
  | (n, k) :: rest => if decide (n = name) then Some k else assoc name rest
  end.

Definition field_kind (m : Model) (name : string) : option FieldKind :=
  assoc name (fields_of m).

(** A lookup such as [approver__department__name] is split at the double
    underscore and followed along the foreign keys. *)
Fixpoint split_lookup (s : string) : list string :=
  match s with
  | EmptyString => [EmptyString]
  | String "_"%char (String "_"%char rest) => EmptyString :: split_lookup rest
  | String c rest =>
      match split_lookup rest with
      | [] => [String c EmptyString]
      | h :: t => String c h :: t
      end
  end.

Fixpoint resolve_path (m : Model) (path : list string) : option FieldKind :=
  match path with
  | [] => None
  | [name] => field_kind m name
  | name :: rest =>
      match field_kind m name with
      | Some (ForeignKey to) => resolve_path to rest
      | _ => None
      end
  end.

Definition resolve_lookup (m : Model) (lookup : string) : option FieldKind :=
  resolve_path m (split_lookup lookup).

(** An [ordering] entry may start with [-] for descending order. *)
Definition strip_desc (s : string) : string :=
  match s with
  | String "-"%char rest => rest
  | _ => s
  end.

(** [admin.TabularInline]; an option that a class does not set has
    Django's default (no names, [can_delete = True]). *)
Record InlineAdmin := mkInline {
  inline_model : Model;
  extra : nat;
  inline_fields : list string;
  inline_readonly_fields : list string;
  inline_ordering : list string;
  can_delete : bool }.

(** [admin.ModelAdmin], registered for [model]. *)
Record ModelAdmin := mkAdmin {
  model : Model;
  list_display : list string;
  list_filter : list string;
  search_fields : list string;
  autocomplete_fields : list string;
  readonly_fields : list string;
  fieldsets : list (string * list string);
  ordering : list string;
  inlines : list InlineAdmin }.

Definition FlowStepAdmin : ModelAdmin :=
  mkAdmin M_FlowStep
    ["flow"; "order"; "approver"; "is_manager_step"; "is_high_priority"]
    ["flow__company"; "flow__department"]
    ["flow__name"; "approver__username"]
    ["flow"; "approver"]
    [] [] ["flow"; "order"] [].

Definition FlowStepInline : InlineAdmin :=
  mkInline M_FlowStep 1
    ["order"; "approver"; "is_manager_step"; "is_high_priority"]
    [] ["order"] true.

Definition ExpenseApprovalInline : InlineAdmin :=
  mkInline M_ExpenseApproval 0 []
    ["approver"; "flow_step"; "status"; "comments"; "acted_at"]
    [] false.

Definition CompanyAdmin : ModelAdmin :=
  mkAdmin M_Company
    ["name"; "country"; "currency_symbol"; "currency_code"; "created_at"]
    ["country"; "currency_code"]
    ["name"; "country"; "currency_code"]
    [] ["created_at"] [] [] [].

Definition DepartmentAdmin : ModelAdmin :=
  mkAdmin M_Department
    ["name"; "company"]
    ["company"]
    ["name"; "company__name"]
    [] [] [] [] [].

Definition UserAdmin : ModelAdmin :=
  mkAdmin M_User
    ["username"; "email"; "role"; "department"; "company"; "manager"]
    ["role"; "company"; "department"]
    ["username"; "email"; "company__name"]
    ["company"; "department"; "manager"]
    []
    [("User Info", ["username"; "email"; "first_name"; "last_name"; "password"]);
     ("Company Details", ["company"; "department"; "role"; "manager"]);
     ("Permissions", ["is_active"; "is_staff"; "is_superuser"; "groups";
                      "user_permissions"])]
    [] [].

Definition ApprovalRuleAdmin : ModelAdmin :=
  mkAdmin M_ApprovalRule
    ["name"; "company"; "rule_type"; "minimum_percentage"; "specific_approver";
     "is_active"]
    ["company"; "rule_type"; "is_active"]
    ["name"; "company__name"]
    ["company"; "specific_approver"]
    []
    [("Basic Info", ["company"; "name"; "rule_type"; "is_active"]);
     ("Rule Settings", ["minimum_percentage"; "specific_approver"])]
    [] [].

Definition ApprovalFlowAdmin : ModelAdmin :=
  mkAdmin M_ApprovalFlow
    ["name"; "company"; "department"; "min_amount"; "max_amount"; "rule";
     "created_at"]
    ["company"; "department"]
    ["name"; "company__name"; "department__name"]
    ["company"; "department"; "rule"]
    ["created_at"]
    [("Flow Information", ["company"; "name"; "description"; "department"]);
     ("Amount Range", ["min_amount"; "max_amount"]);
     ("Approval Rule", ["rule"]);
     ("Metadata", ["created_at"])]
    ["company"; "department"; "min_amount"]
    [FlowStepInline].

Definition ExpenseAdmin : ModelAdmin :=
  mkAdmin M_Expense
    ["id"; "employee"; "category"; "amount"; "currency_symbol"; "currency_code";
     "converted_amount"; "converted_currency_symbol"; "status"; "approval_rule";
     "flow"; "created_at"]
    ["status"; "employee__company"; "employee__department"; "category"]
    ["employee__username"; "category"; "approval_rule__name"; "flow__name"]
    ["employee"; "approval_rule"; "flow"]
    ["created_at"]
    [("Expense Details",
      ["employee"; "category"; "description"; "expense_date"; "receipt"]);
     ("Amounts",
      ["amount"; "currency_symbol"; "currency_code"; "converted_amount";
       "converted_currency_symbol"; "converted_currency_code"]);
     ("Approval Configuration", ["status"; "approval_rule"; "flow"]);
     ("Timestamps", ["created_at"])]
    ["-created_at"]
    [ExpenseApprovalInline].

Definition ExpenseApprovalAdmin : ModelAdmin :=
  mkAdmin M_ExpenseApproval
    ["expense"; "approver"; "status"; "flow_step"; "acted_at"]
    ["status"; "approver__company"; "approver__department"]
    ["expense__id"; "approver__username"; "approver__department__name"]
    ["expense"; "approver"; "flow_step"]
    ["acted_at"] [] ["-acted_at"] [].

(** The classes registered with [@admin.register], in the order of the
    file. *)
Definition site : list ModelAdmin :=
  [FlowStepAdmin; CompanyAdmin; DepartmentAdmin; UserAdmin; ApprovalRuleAdmin;
   ApprovalFlowAdmin; ExpenseAdmin; ExpenseApprovalAdmin].

(** The admin registered for a model. *)
Definition admin_of (m : Model) : option ModelAdmin :=
  find (λ a, bool_decide (model a = m)) site.

(** The names of the columns of a model that a form offers by default. *)
Definition editable_fields (m : Model) : list string :=
  (fields_of m ≫= λ p, if decide (p.2 = Column false) then [] else [p.1]).

(** The fields of the change form: those of the fieldsets (all editable
    ones when the class has no fieldsets) that are not read-only. *)
Definition form_fields (a : ModelAdmin) : list string :=
  filter (λ f, f ∉ readonly_fields a)
    (match fieldsets a with
     | [] => editable_fields (model a)
     | fs => fs ≫= snd
     end).

(** The foreign keys of [m] to [parent]. *)
Definition keys_to (parent m : Model) : list string :=
  (fields_of m ≫= λ p, if decide (p.2 = ForeignKey parent) then [p.1] else []).

(** The fields of the forms of an inline on the page of [parent]: the
    listed ones (all editable ones but the key to the parent when none is
    listed) that are not read-only. *)
Definition inline_form_fields (parent : Model) (i : InlineAdmin) : list string :=
  filter (λ f, f ∉ inline_readonly_fields i)
    (match inline_fields i with
     | [] => filter (λ f, f ∉ keys_to parent (inline_model i))
                    (editable_fields (inline_model i))
     | fs => fs
     end).

End Admin.

(** One employee in the Finance department. *)
Definition finance_db : DB :=
  with_departments {[ 1%nat := Department.mk 1 "Finance" ]}
    (with_users {[ 1%nat := User.mk "ann" None (Some 1%nat) EMPLOYEE None ]}
       empty_db).

(** Whether a nullable foreign key points at a department, a user or a rule
    of company [c]. *)
Definition department_of_company (c : nat) (db : DB) (fk : option nat) : bool :=
  bool_decide ((fk ≫= λ k, Department.company <$> departments db !! k) = Some c).

Definition user_of_company (c : nat) (db : DB) (fk : option nat) : bool :=
  bool_decide ((fk ≫= λ k, users db !! k ≫= User.company) = Some c).

Definition rule_of_company (c : nat) (db : DB) (fk : option nat) : bool :=
  bool_decide ((fk ≫= λ k, ApprovalRule.company <$> approval_rules db !! k) = Some c).

(* ===================================================================== *)
(** * Properties                                                          *)
(* ===================================================================== *)

(* ===================================================================== *)
(** ** Tables                                                             *)
(* ===================================================================== *)

Section tables.
Context {A : Type}.
Implicit Types (tbl : gmap nat A) (gone : gset nat) (k : nat).

Lemma lookup_drop_rows gone tbl k :
  drop_rows gone tbl !! k = if decide (k ∈ gone) then None else tbl !! k.
Proof.
  unfold drop_rows. apply option_eq; intros x.
  rewrite map_lookup_filter_Some; simpl.
  destruct (decide (k ∈ gone)); [split; [tauto|done] | tauto].
Qed.

Lemma lookup_set_null (refers : A → bool) (clear : A → A) tbl k :
  set_null refers clear tbl !! k
  = (λ r, if refers r then clear r else r) <$> tbl !! k.
Proof. unfold set_null. apply lookup_fmap. Qed.

Lemma elem_of_referring (refers : A → bool) tbl k :
  k ∈ referring refers tbl ↔ ∃ r, tbl !! k = Some r ∧ refers r = true.
Proof.
  unfold referring. rewrite elem_of_dom. unfold is_Some.
  setoid_rewrite map_lookup_filter_Some. naive_solver.
Qed.

Lemma fresh_pk_above tbl k : is_Some (tbl !! k) → (k < fresh_pk tbl)%nat.
Proof.
  intros [x Hx]. unfold fresh_pk.
  assert (k ∈ (map_to_list tbl).*1) as Hin.
  { apply list_elem_of_fmap. exists (k, x). split; [done|].
    by apply elem_of_map_to_list. }
  apply max_list_elem_of_le in Hin. lia.
Qed.

Lemma fresh_pk_unused tbl : tbl !! fresh_pk tbl = None.
Proof.
  destruct (tbl !! fresh_pk tbl) eqn:E; [|done].
  assert (fresh_pk tbl < fresh_pk tbl)%nat by (apply fresh_pk_above; eauto).
  lia.
Qed.

Lemma map_size_le_1 tbl :
  (∀ k1 k2, is_Some (tbl !! k1) → is_Some (tbl !! k2) → k1 = k2) →
  (size tbl ≤ 1)%nat.
Proof.
  intros Huniq.
  destruct (map_choose_or_empty tbl) as [(k & x & Hk)| ->];
    [|rewrite map_size_empty; lia].
  assert (delete k tbl = ∅) as Hdel.
  { apply map_empty. intros k'. apply lookup_delete_None.
    destruct (decide (k = k')); [by left|right].
    destruct (tbl !! k') eqn:E; [|done].
    exfalso. eauto. }
  rewrite <- (insert_delete_id tbl k x) by done.
  rewrite Hdel. rewrite map_size_insert_None by done.
  rewrite map_size_empty. lia.
Qed.
End tables.

Lemma points_at_singleton (pk fk : nat) :
  points_at {[ pk ]} fk = bool_decide (fk = pk).
Proof. unfold points_at. apply bool_decide_ext. set_solver. Qed.

Lemma points_at_opt_singleton (pk : nat) (fk : option nat) :
  points_at_opt {[ pk ]} fk = bool_decide (fk = Some pk).
Proof.
  destruct fk as [k|]; simpl; [|done].
  apply bool_decide_ext.
  split; [intros ->%elem_of_singleton; done | intros [= ->]; set_solver].
Qed.

(* ===================================================================== *)
(** ** Deletion                                                           *)
(* ===================================================================== *)

Lemma users_delete_Users gone db :
  users (delete_Users gone db)
  = drop_rows gone (set_null (λ u, points_at_opt gone (User.manager u))
                             (User.set_manager None) (users db)).
Proof. reflexivity. Qed.

Lemma expense_approvals_delete_FlowSteps gone db :
  expense_approvals (delete_FlowSteps gone db)
  = set_null (λ a, points_at_opt gone (ExpenseApproval.flow_step a))
             (ExpenseApproval.set_flow_step None) (expense_approvals db).
Proof. reflexivity. Qed.

Lemma flow_steps_delete_FlowSteps gone db :
  flow_steps (delete_FlowSteps gone db) = drop_rows gone (flow_steps db).
Proof. reflexivity. Qed.

Lemma flow_steps_delete_Users gone db :
  flow_steps (delete_Users gone db)
  = drop_rows (referring (λ s, points_at gone (FlowStep.approver s)) (flow_steps db))
              (flow_steps db).
Proof. reflexivity. Qed.

Lemma approval_flows_delete_Users gone db :
  approval_flows (delete_Users gone db) = approval_flows db.
Proof. reflexivity. Qed.

Lemma approval_rules_delete_Users gone db :
  approval_rules (delete_Users gone db)
  = set_null (λ r, points_at_opt gone (ApprovalRule.specific_approver r))
             (ApprovalRule.set_specific_approver None) (approval_rules db).
Proof. reflexivity. Qed.

(** C7, as stated, fails for a user who is their own manager: the schema
    lets [manager] point at the row itself, and deleting that manager
    deletes the user. *)
Lemma self_managed_user_is_deleted :
  users self_managed_db !! 1%nat = Some self_managed
  ∧ User.manager self_managed = Some 1%nat
  ∧ users (delete_User 1 self_managed_db) !! 1%nat = None.
Proof. split; [|split]; reflexivity. Qed.

(** C7 (amended): for two distinct users [u] and [m] with [u.manager = m],
    deleting [m] removes [m], keeps [u], sets [u.manager] to null and
    changes no other field of [u]. *)
Theorem delete_manager_sets_null (db : DB) (uid mid : nat) (u : User.t) :
  users db !! uid = Some u → User.manager u = Some mid → uid ≠ mid →
  users (delete_User mid db) !! mid = None
  ∧ users (delete_User mid db) !! uid
    = Some (User.mk (User.username u) (User.company u) (User.department u)
                    (User.role u) None).
Proof.
  intros Hu Hm Hne. unfold delete_User. rewrite users_delete_Users. split.
  - rewrite lookup_drop_rows. rewrite decide_True; [done | set_solver].
  - rewrite lookup_drop_rows. rewrite decide_False by set_solver.
    rewrite lookup_set_null, Hu. simpl.
    rewrite points_at_opt_singleton, Hm. by rewrite bool_decide_eq_true_2.
Qed.

Lemma delete_manager_sets_null_witness :
  users (delete_User 1 acme_db) !! 1%nat = None
  ∧ users (delete_User 1 acme_db) !! 2%nat
    = Some (User.mk "employee" (Some 1%nat) None EMPLOYEE None).
Proof.
  apply (delete_manager_sets_null acme_db 2 1
           (User.mk "employee" (Some 1%nat) None EMPLOYEE (Some 1%nat)));
    [reflexivity | reflexivity | lia].
Defined.

(** C8: deleting the flow step an approval refers to removes the step and
    sets the approval's [flow_step] to null; the approval stays, with its
    expense, approver, status, comments and [acted_at] as they were. *)
Theorem delete_step_keeps_decision (db : DB) (aid sid : nat) (a : ExpenseApproval.t) :
  expense_approvals db !! aid = Some a →
  ExpenseApproval.flow_step a = Some sid →
  flow_steps (delete_FlowStep sid db) !! sid = None
  ∧ expense_approvals (delete_FlowStep sid db) !! aid
    = Some (ExpenseApproval.mk (ExpenseApproval.expense a) (ExpenseApproval.approver a)
              None (ExpenseApproval.status a) (ExpenseApproval.comments a)
              (ExpenseApproval.acted_at a)).
Proof.
  intros Ha Hs. unfold delete_FlowStep. split.
  - rewrite flow_steps_delete_FlowSteps, lookup_drop_rows.
    rewrite decide_True; [done | set_solver].
  - rewrite expense_approvals_delete_FlowSteps, lookup_set_null, Ha. simpl.
    rewrite points_at_opt_singleton, Hs.
    by rewrite bool_decide_eq_true_2.
Qed.

Lemma delete_step_keeps_decision_witness :
  flow_steps (delete_FlowStep 1 acme_manager_approved) !! 1%nat = None
  ∧ expense_approvals (delete_FlowStep 1 acme_manager_approved) !! 1%nat
    = Some (ExpenseApproval.mk 1 1 None A_APPROVED "ok" (Some 5)).
Proof.
  apply (delete_step_keeps_decision acme_manager_approved 1 1
           (ExpenseApproval.mk 1 1 (Some 1%nat) A_APPROVED "ok" (Some 5)));
    [vm_compute; reflexivity | reflexivity].
Defined.

(** C10: deleting a user who is the approver of a flow step deletes the
    step (whatever its [is_manager_step]); the flows themselves and the
    steps of other approvers stay. *)
Theorem delete_approver_deletes_step (db : DB) (uid sid : nat) (s : FlowStep.t) :
  flow_steps db !! sid = Some s →
  FlowStep.approver s = uid →
  flow_steps (delete_User uid db) !! sid = None
  ∧ approval_flows (delete_User uid db) = approval_flows db
  ∧ ∀ sid' s', flow_steps db !! sid' = Some s' → FlowStep.approver s' ≠ uid →
      flow_steps (delete_User uid db) !! sid' = Some s'.
Proof.
  intros Hs Ha. unfold delete_User. split; [|split].
  - rewrite flow_steps_delete_Users, lookup_drop_rows.
    rewrite decide_True; [done|].
    apply elem_of_referring. exists s. split; [done|].
    rewrite points_at_singleton. by apply bool_decide_eq_true_2.
  - apply approval_flows_delete_Users.
  - intros sid' s' Hs' Hne.
    rewrite flow_steps_delete_Users, lookup_drop_rows.
    rewrite decide_False; [done|].
    intros (r & Hr & Hp)%elem_of_referring.
    rewrite points_at_singleton in Hp. apply bool_decide_eq_true_1 in Hp.
    congruence.
Qed.

Lemma delete_approver_deletes_step_witness :
  flow_steps (delete_User 3 acme_db) !! 2%nat = None
  ∧ approval_flows (delete_User 3 acme_db) = approval_flows acme_db
  ∧ ∀ sid' s', flow_steps acme_db !! sid' = Some s' → FlowStep.approver s' ≠ 3%nat →
      flow_steps (delete_User 3 acme_db) !! sid' = Some s'.
Proof.
  apply (delete_approver_deletes_step acme_db 3 2 (FlowStep.mk 1 3 2 false false));
    reflexivity.
Defined.

(* ===================================================================== *)
(** ** The fields of an [ApprovalRule]                                    *)
(* ===================================================================== *)

(** C6, as stated, fails: a PERCENTAGE rule is stored without a
    [minimum_percentage], and deleting the specific approver of a SPECIFIC
    rule leaves the rule without one. *)
Lemma rule_fields_mismatch :
  (∃ r, approval_rules
          (ApprovalRule_objects_create 1 "Sixty percent" PERCENTAGE None None None
             empty_db).2 !! 1%nat = Some r
        ∧ ¬ rule_fields_match r)
  ∧ (∃ r r', approval_rules acme_db !! 1%nat = Some r
             ∧ rule_fields_match r
             ∧ approval_rules (delete_User 3 acme_db) !! 1%nat = Some r'
             ∧ ¬ rule_fields_match r').
Proof.
  split.
  - eexists. split; [reflexivity|].
    intros [[_ H] _]. simpl in H. by apply H; [left|].
  - exists cfo_rule, (ApprovalRule.set_specific_approver None cfo_rule).
    split; [reflexivity|]. split; [|split; [reflexivity|]].
    + split; simpl.
      * split; [intros H; by destruct H | intros [?|?]; done].
      * split; [intros _; by left | intros _; done].
    + intros [_ [_ H]]. simpl in H. by apply H; [left|].
Qed.

(** C6 (amended): both settings are nullable whatever the [rule_type] and
    nothing relates them to it: a rule is stored with the values it is
    created with, and deleting the user who is its [specific_approver] sets
    that field to null and keeps the rest of the rule. *)
Theorem rule_fields_unconstrained :
  (∀ company name rule_type minimum_percentage specific_approver is_active db,
      approval_rules
        (ApprovalRule_objects_create company name rule_type minimum_percentage
           specific_approver is_active db).2
      !! (ApprovalRule_objects_create company name rule_type minimum_percentage
            specific_approver is_active db).1
      = Some (ApprovalRule.mk company name rule_type minimum_percentage
                specific_approver (default true is_active)))
  ∧ (∀ db rid r uid,
      approval_rules db !! rid = Some r →
      ApprovalRule.specific_approver r = Some uid →
      approval_rules (delete_User uid db) !! rid
      = Some (ApprovalRule.mk (ApprovalRule.company r) (ApprovalRule.name r)
                (ApprovalRule.rule_type r) (ApprovalRule.minimum_percentage r)
                None (ApprovalRule.is_active r))).
Proof.
  split.
  - intros. unfold ApprovalRule_objects_create. simpl. apply lookup_insert_eq.
  - intros db rid r uid Hr Hs. unfold delete_User.
    rewrite approval_rules_delete_Users, lookup_set_null, Hr. simpl.
    rewrite points_at_opt_singleton, Hs. by rewrite bool_decide_eq_true_2.
Qed.

Lemma rule_fields_unconstrained_witness :
  approval_rules (delete_User 3 acme_db) !! 1%nat
  = Some (ApprovalRule.mk 1 "CFO decides" SPECIFIC None None true).
Proof.
  apply (proj2 rule_fields_unconstrained acme_db 1%nat cfo_rule 3%nat);
    reflexivity.
Defined.

(* ===================================================================== *)
(** ** The [post_save] receiver                                           *)
(* ===================================================================== *)

Lemma truthy_getattr instance name :
  truthy (getattr instance name PyNone) = true →
  provided instance name (py_str (getattr instance name PyNone)).
Proof.
  unfold getattr, provided.
  destruct (UserInstance.attrs instance !! name) as [[|s]|]; simpl; try done.
  destruct s; [done|]. intros _. split; done.
Qed.

Lemma provided_getattr instance name s :
  provided instance name s →
  getattr instance name PyNone = PyStr s ∧ truthy (PyStr s) = true.
Proof.
  intros [H Hne]. unfold getattr. rewrite H. simpl. split; [done|].
  by destruct s.
Qed.

Lemma User_save_S fuel now instance db :
  User_save (S fuel) now instance db
  = create_company_for_admin (User_save fuel now) now
      (UserInstance.set_pk (Some (saved_pk instance db)) instance)
      (is_creation instance db)
      (with_users (<[saved_pk instance db := UserInstance.fields instance]> (users db))
                  db).
Proof.
  simpl. unfold is_creation, saved_pk.
  by destruct (UserInstance.pk instance).
Qed.

(** The nested save of the receiver is an update: [created] is false and
    the receiver does nothing more. *)
Lemma User_save_update fuel now instance db k :
  UserInstance.pk instance = Some k → is_Some (users db !! k) →
  User_save (S fuel) now instance db
  = Some (instance,
          with_users (<[k := UserInstance.fields instance]> (users db)) db).
Proof.
  intros Hpk [u Hu]. simpl. rewrite Hpk.
  rewrite bool_decide_eq_false_2 by (rewrite Hu; done). simpl.
  unfold create_company_for_admin. simpl.
  destruct instance; simpl in *; by subst.
Qed.

(** C5: saving a user returns (two levels of nesting suffice) with the row
    stored, and either the save is a creation of an ADMIN without company
    whose four provisioning attributes are present and non-empty, exactly
    one company with these values is inserted under a new key and the
    user's [company] is that key; or one of the conditions fails, the
    company table is as before and the user's [company] is unchanged. *)
Theorem create_company_for_admin_iff (fuel : nat) (now : Z)
    (instance : UserInstance.t) (db : DB) :
  ∃ instance' db',
    User_save (S (S fuel)) now instance db = Some (instance', db')
    ∧ UserInstance.pk instance' = Some (saved_pk instance db)
    ∧ users db' !! saved_pk instance db = Some (UserInstance.fields instance')
    ∧ ((provisions instance db
        ∧ ∃ name country code symbol,
            company_requested instance name country code symbol
            ∧ companies db !! fresh_pk (companies db) = None
            ∧ companies db'
              = <[fresh_pk (companies db)
                  := Company.mk name country code symbol now]> (companies db)
            ∧ User.company (UserInstance.fields instance')
              = Some (fresh_pk (companies db)))
       ∨ (¬ provisions instance db
          ∧ companies db' = companies db
          ∧ User.company (UserInstance.fields instance')
            = User.company (UserInstance.fields instance))).
Proof.
  rewrite User_save_S.
  set (pk := saved_pk instance db).
  set (created := is_creation instance db).
  unfold create_company_for_admin at 1.
  cbn [UserInstance.fields UserInstance.set_pk UserInstance.attrs].
  set (inst1 := UserInstance.set_pk (Some pk) instance).
  assert (∀ name, getattr inst1 name PyNone = getattr instance name PyNone) as Hattr
    by done.
  destruct (created && bool_decide (User.role (UserInstance.fields instance) = ADMIN)
            && bool_decide (User.company (UserInstance.fields instance) = None))
    eqn:Hguard.
  - apply andb_true_iff in Hguard as [Hguard Hcomp].
    apply andb_true_iff in Hguard as [Hcreated Hrole].
    apply bool_decide_eq_true_1 in Hrole, Hcomp.
    rewrite !Hattr.
    destruct (truthy (getattr instance "_company_name" PyNone)
              && truthy (getattr instance "_country" PyNone)
              && truthy (getattr instance "_currency_code" PyNone)
              && truthy (getattr instance "_currency_symbol" PyNone)) eqn:Hattrs.
    + apply andb_true_iff in Hattrs as [Hattrs H4].
      apply andb_true_iff in Hattrs as [Hattrs H3].
      apply andb_true_iff in Hattrs as [H1 H2].
      apply truthy_getattr in H1, H2, H3, H4.
      unfold Company_objects_create.
      erewrite User_save_update; cycle 1.
      { reflexivity. }
      { cbn. rewrite lookup_insert_eq. eauto. }
      eexists _, _. split; [reflexivity|]. cbn.
      split; [done|]. split; [by rewrite lookup_insert_eq|].
      left. split.
      * repeat split; try done. eexists _, _, _, _.
        exact (conj H1 (conj H2 (conj H3 H4))).
      * eexists _, _, _, _. split; [exact (conj H1 (conj H2 (conj H3 H4)))|].
        split; [apply fresh_pk_unused|]. done.
    + eexists _, _. split; [reflexivity|]. cbn.
      split; [done|]. split; [by rewrite lookup_insert_eq|].
      right. split; [|done].
      intros (_ & _ & _ & n & c & cc & cs & P1 & P2 & P3 & P4).
      apply provided_getattr in P1 as [E1 T1], P2 as [E2 T2],
          P3 as [E3 T3], P4 as [E4 T4].
      rewrite E1, E2, E3, E4, T1, T2, T3, T4 in Hattrs. done.
  - eexists _, _. split; [reflexivity|]. cbn.
    split; [done|]. split; [by rewrite lookup_insert_eq|].
    right. split; [|done].
    intros (Hc & Hr & Hn & _).
    fold created in Hc. rewrite Hc in Hguard.
    rewrite !bool_decide_eq_true_2 in Hguard by done. done.
Qed.

(** The registration of the sample administrator creates company 1. *)
Example signup_creates_company :
  ∃ instance' db',
    User_save 2 0 signup empty_db = Some (instance', db')
    ∧ companies db' !! 1%nat = Some (Company.mk "Acme" "India" "INR" "Rs" 0)
    ∧ User.company (UserInstance.fields instance') = Some 1%nat
    ∧ (User.company <$> users db' !! 1%nat) = Some (Some 1%nat).
Proof. eexists _, _. split; [reflexivity|]. repeat split. Qed.

(* ===================================================================== *)
(** ** Rule evaluator                                                     *)
(* ===================================================================== *)

Lemma percent_ge (p count total : Z) :
  0 < total →
  Qle_bool (inject_Z p) (percent count total) = true ↔ p * total ≤ count * 100.
Proof.
  intros Ht. rewrite Qle_bool_iff.
  destruct total as [|t|t]; try lia.
  unfold percent, Qle, Qdiv, Qmult, Qinv; simpl. lia.
Qed.

Lemma evaluate_override rule ds act total :
  high_priority_approved ds = true → evaluate rule ds act total = Approved.
Proof. intros H. unfold evaluate. by rewrite H. Qed.

Lemma evaluate_no_override rule ds act total :
  high_priority_approved ds = false →
  evaluate rule ds act total = rule_verdict rule ds act total.
Proof. intros H. unfold evaluate. by rewrite H. Qed.

Lemma percentage_verdict_approved p ds act total :
  percentage_verdict p ds act total = Approved
  ↔ Qle_bool (inject_Z p) (percent (approved_count ds) total) = true.
Proof.
  unfold percentage_verdict.
  destruct (Qle_bool (inject_Z p) (percent (approved_count ds) total)); [done|].
  destruct (negb _); split; done.
Qed.

(** C1, as stated, fails: under the 60 percent rule on five steps, one
    APPROVED decision of a high-priority step already gives Approved; in
    the sample flow the expense is APPROVED after its first decision. *)
Lemma percentage_rule_counterexample :
  evaluate (Some (Percentage 60)) [mkDecision 3 O_APPROVED true] 1 5 = Approved
  ∧ approved_count [mkDecision 3 O_APPROVED true] = 1
  ∧ decisions_so_far 1 five_step_first_approved = [mkDecision 3 O_APPROVED true]
  ∧ (Expense.status <$> expenses five_step_first_approved !! 1%nat) = Some APPROVED
  ∧ ¬ (∀ ds act, evaluate (Some (Percentage 60)) ds act 5 = Approved
                 → 3 ≤ approved_count ds).
Proof.
  split; [reflexivity|]. split; [reflexivity|].
  split; [vm_compute; reflexivity|]. split; [vm_compute; reflexivity|].
  intros H. specialize (H [mkDecision 3 O_APPROVED true] 1 eq_refl).
  vm_compute in H. by apply H.
Qed.

(** C1 (amended): under a PERCENTAGE rule the verdict is Approved once
    [approved_count / total * 100 >= minimum_percentage], [total] being the
    number of steps of the flow; when no APPROVED decision belongs to a
    high-priority step it is Approved only then, so with
    [minimum_percentage = 60] and five steps exactly from the third
    APPROVED decision on. *)
Theorem percentage_rule_threshold :
  (∀ p ds act total,
      (inject_Z p <= percent (approved_count ds) total)%Q →
      evaluate (Some (Percentage p)) ds act total = Approved)
  ∧ (∀ p ds act total,
      high_priority_approved ds = false →
      evaluate (Some (Percentage p)) ds act total = Approved
      ↔ (inject_Z p <= percent (approved_count ds) total)%Q)
  ∧ (∀ ds act,
      high_priority_approved ds = false →
      evaluate (Some (Percentage 60)) ds act 5 = Approved
      ↔ 3 ≤ approved_count ds).
Proof.
  split; [|split].
  - intros p ds act total Hp. unfold evaluate.
    destruct (high_priority_approved ds); [done|]. simpl.
    apply percentage_verdict_approved. by apply Qle_bool_iff.
  - intros p ds act total Hhp. rewrite evaluate_no_override by done. simpl.
    rewrite percentage_verdict_approved. apply Qle_bool_iff.
  - intros ds act Hhp. rewrite evaluate_no_override by done. simpl.
    rewrite percentage_verdict_approved, percent_ge by lia. lia.
Qed.

Lemma percentage_rule_threshold_witness :
  evaluate (Some (Percentage 60))
    [mkDecision 1 O_APPROVED false; mkDecision 2 O_REJECTED false;
     mkDecision 3 O_APPROVED false; mkDecision 4 O_APPROVED false] 4 5 = Approved
  ∧ evaluate (Some (Percentage 60))
      [mkDecision 1 O_APPROVED false; mkDecision 2 O_REJECTED false;
       mkDecision 3 O_APPROVED false] 3 5 ≠ Approved.
Proof.
  split.
  - apply (proj2 (proj2 percentage_rule_threshold)); [reflexivity|].
    vm_compute. discriminate.
  - intros H.
    apply (proj2 (proj2 percentage_rule_threshold)) in H; [|reflexivity].
    vm_compute in H. by apply H.
Defined.

Lemma decisions_so_far_elem (db : DB) (e k : nat) (a : ExpenseApproval.t) d :
  expense_approvals db !! k = Some a →
  ExpenseApproval.expense a = e →
  decision_of db a = Some d →
  d ∈ decisions_so_far e db.
Proof.
  intros Ha He Hd. unfold decisions_so_far.
  apply list_elem_of_omap. exists (k, a). split; [|done].
  unfold approvals_of. apply elem_of_map_to_list.
  by apply map_lookup_filter_Some.
Qed.

(** C3: whatever the rule (PERCENTAGE, SPECIFIC, HYBRID or none), when an
    approval of the expense is APPROVED and its flow step is high-priority,
    the evaluator's verdict on the expense's decisions is Approved. *)
Theorem high_priority_override (rule : option RuleSpec) (db : DB) (e k : nat)
    (a : ExpenseApproval.t) (s : FlowStep.t) (act total : Z) :
  expense_approvals db !! k = Some a →
  ExpenseApproval.expense a = e →
  ExpenseApproval.status a = A_APPROVED →
  step_of a db = Some s →
  FlowStep.is_high_priority s = true →
  evaluate rule (decisions_so_far e db) act total = Approved.
Proof.
  intros Ha He Hst Hs Hhp. apply evaluate_override.
  unfold high_priority_approved. apply existsb_exists.
  exists (mkDecision (ExpenseApproval.approver a) O_APPROVED true).
  split; [|done].
  apply list_elem_of_In. eapply decisions_so_far_elem; [done..|].
  unfold decision_of. by rewrite Hs, Hst, Hhp.
Qed.

Lemma high_priority_override_witness :
  evaluate (Some (Percentage 60)) (decisions_so_far 1 five_step_first_approved) 1 5
  = Approved.
Proof.
  apply (high_priority_override (Some (Percentage 60)) five_step_first_approved 1 1
           (ExpenseApproval.mk 1 3 (Some 1%nat) A_APPROVED "ok" (Some 5))
           (FlowStep.mk 1 3 1 false true));
    first [reflexivity | vm_compute; reflexivity].
Defined.

(** The threshold of the rule in that state is not met. *)
Example high_priority_threshold_unmet :
  rule_verdict (Some (Percentage 60)) (decisions_so_far 1 five_step_first_approved) 1 5
  = Pending.
Proof. vm_compute. reflexivity. Qed.

(* ===================================================================== *)
(** ** Flow resolver                                                      *)
(* ===================================================================== *)

Lemma resolve_approvers_inv manager steps ms m :
  resolve_approvers manager steps = inr ms → m ∈ ms →
  ∃ k s, (k, s) ∈ steps ∧ ms_step m = k ∧ ms_order m = FlowStep.order s.
Proof.
  revert ms. induction steps as [|[k s] rest IH]; intros ms; simpl.
  - intros [= <-] Hin. by apply elem_of_nil in Hin.
  - destruct (if FlowStep.is_manager_step s then manager else Some (FlowStep.approver s))
      as [who|]; [|done].
    destruct (resolve_approvers manager rest) as [err|ms'] eqn:Hrest; [done|].
    intros [= <-] [->|Hin]%elem_of_cons.
    + exists k, s. split; [left|done].
    + destruct (IH ms' eq_refl Hin) as (k' & s' & Hin' & ?).
      exists k', s'. split; [by right|done].
Qed.

Lemma resolve_approvers_error manager steps err :
  resolve_approvers manager steps = inl err → err = NoManagerAssigned.
Proof.
  induction steps as [|[k s] rest IH]; simpl; [done|].
  destruct (if FlowStep.is_manager_step s then manager else Some (FlowStep.approver s))
    as [who|]; [|by intros [= <-]].
  destruct (resolve_approvers manager rest) as [err'|ms']; [|done].
  intros [= <-]. by apply IH.
Qed.

Lemma steps_of_lookup flow db k s :
  (k, s) ∈ steps_of flow db → flow_steps db !! k = Some s.
Proof.
  unfold steps_of. rewrite merge_sort_Permutation.
  intros Hin%elem_of_map_to_list. by apply map_lookup_filter_Some in Hin as [? _].
Qed.

Lemma materialize_steps_known flow e db steps m :
  materialize_steps flow e db = inr steps → m ∈ steps →
  ∃ s, flow_steps db !! ms_step m = Some s ∧ ms_order m = FlowStep.order s.
Proof.
  unfold materialize_steps. destruct flow as [f|]; [|done].
  destruct (steps_of f db) as [|x l] eqn:Hs; [done|].
  intros Hres Hin.
  destruct (resolve_approvers_inv _ _ _ _ Hres Hin) as (k & s & Hks & <- & ->).
  exists s. split; [|done]. apply (steps_of_lookup f). by rewrite Hs.
Qed.

Lemma materialize_steps_error flow e db err :
  materialize_steps flow e db = inl err →
  err = EmptyFlow ∨ err = NoManagerAssigned.
Proof.
  unfold materialize_steps.
  destruct (match flow with Some f => steps_of f db | None => [] end);
    [intros [= <-]; by left|].
  intros ->%resolve_approvers_error. by right.
Qed.

Lemma next_step_above acts steps next :
  next_step acts steps = Some next →
  next ∈ steps ∧ ∀ o, o ∈ acts → o < ms_order next.
Proof.
  unfold next_step. intros [Hin Hall]%find_some. split.
  - by apply list_elem_of_In.
  - intros o Ho. rewrite forallb_forall in Hall.
    apply list_elem_of_In, Hall in Ho. lia.
Qed.

(* ===================================================================== *)
(** ** Approval state machine                                             *)
(* ===================================================================== *)

Lemma submit_body_inv (e : nat) (db db' : DB) (r : Error + unit) :
  submit_body e db = (db', r) →
  (∃ err, r = inl err ∧ db' = db)
  ∨ (∃ erow flow steps first,
        r = inr tt
        ∧ expenses db !! e = Some erow
        ∧ Expense.status erow = DRAFT
        ∧ resolve erow db = inr flow
        ∧ materialize_steps (Some flow) erow db = inr steps
        ∧ next_step [] steps = Some first
        ∧ db' = submitted e flow first db).
Proof.
  unfold submit_body. unfold_M.
  destruct (expenses db !! e) as [erow|] eqn:He; [|intros [= <- <-]; eauto].
  case_bool_decide as Hst; [|intros [= <- <-]; eauto].
  destruct (resolve erow db) as [err|flow] eqn:Hres; [intros [= <- <-]; eauto|].
  destruct (materialize_steps (Some flow) erow db) as [err|steps] eqn:Hmat;
    [intros [= <- <-]; eauto|].
  destruct (next_step [] steps) as [first|] eqn:Hnext; [|intros [= <- <-]; eauto].
  intros [= <- <-]. right. eexists _, _, _, _. repeat split; eauto.
Qed.

Lemma record_decision_body_inv (e ak : nat) (o : Outcome) (c : string) (now : Z)
    (db db' : DB) (r : Error + unit) :
  record_decision_body e ak o c now db = (db', r) →
  (∃ err, r = inl err ∧ db' = db ∧ (err = InvalidState ∨ err = UnknownApproval))
  ∨ (∃ erow arow,
        expenses db !! e = Some erow
        ∧ Expense.status erow = PENDING
        ∧ expense_approvals db !! ak = Some arow
        ∧ ExpenseApproval.expense arow = e
        ∧ ExpenseApproval.status arow = A_PENDING
        ∧ ((r = inr tt
            ∧ db' = update_expense e (Expense.set_status APPROVED)
                      (decided ak o c now db))
           ∨ (r = inr tt
              ∧ db' = update_expense e (Expense.set_status REJECTED)
                        (decided ak o c now db))
           ∨ (∃ err, r = inl err ∧ db' = decided ak o c now db
                     ∧ (err = EmptyFlow ∨ err = NoManagerAssigned
                        ∨ err = FlowExhausted))
           ∨ (∃ steps next,
                 r = inr tt
                 ∧ materialize_steps (Expense.flow erow) erow (decided ak o c now db)
                   = inr steps
                 ∧ next_step (activated_orders e (decided ak o c now db)) steps
                   = Some next
                 ∧ db' = activated e next (decided ak o c now db)))).
Proof.
  unfold record_decision_body. unfold_M.
  destruct (expenses db !! e) as [erow|] eqn:He; [|intros [= <- <-]; eauto 10].
  case_bool_decide as Hst; [|intros [= <- <-]; eauto 10].
  destruct (expense_approvals db !! ak) as [arow|] eqn:Ha;
    [|intros [= <- <-]; eauto 10].
  case_bool_decide as Hex; [|intros [= <- <-]; eauto 10].
  case_bool_decide as Hpen; [|intros [= <- <-]; eauto 10].
  fold (decided ak o c now db).
  destruct (evaluate _ _ _ _).
  - destruct (materialize_steps _ _ _) as [err|steps] eqn:Hmat.
    { apply materialize_steps_error in Hmat.
      intros [= <- <-]. right. eexists _, _. repeat split; eauto.
      right; right; left. exists err.
      split; [done|]. split; [done|]. destruct Hmat; auto. }
    destruct (next_step _ steps) as [next|] eqn:Hnext.
    + intros [= <- <-]. right. eexists _, _. repeat split; eauto.
      right; right; right. eexists _, _. repeat split; eauto.
    + intros [= <- <-]. right. eexists _, _. repeat split; eauto.
      right; right; left. exists FlowExhausted. auto.
  - intros [= <- <-]. right. eexists _, _. repeat split; eauto.
  - intros [= <- <-]. right. eexists _, _. repeat split; eauto.
Qed.

(** Without the transaction: [submit] fails before its first write. *)
Lemma submit_body_fails_before_writing e db err :
  (submit_body e db).2 = inl err → (submit_body e db).1 = db.
Proof.
  destruct (submit_body e db) as [db' r] eqn:Hrun. simpl. intros ->.
  by apply submit_body_inv in Hrun as [(? & _ & ->)|(? & ? & ? & ? & [=] & _)].
Qed.

(** Without the transaction: [InvalidState] and [UnknownApproval] are
    raised before the first write of [record_decision]. *)
Lemma record_decision_body_checks_before_writing e ak o cm now db err :
  (record_decision_body e ak o cm now db).2 = inl err →
  err = InvalidState ∨ err = UnknownApproval →
  (record_decision_body e ak o cm now db).1 = db.
Proof.
  destruct (record_decision_body e ak o cm now db) as [db' r] eqn:Hrun. simpl.
  intros -> Herr.
  apply record_decision_body_inv in Hrun
    as [(? & _ & -> & _)
       |(? & ? & _ & _ & _ & _ & _ &
         [[[=] _]|[[[=] _]|[(err' & [= <-] & _ & Hlate)|(? & ? & [=] & _)]]])];
    [done|].
  destruct Herr as [-> | ->], Hlate as [?|[?|?]]; done.
Qed.

(** Without the transaction: FlowExhausted is raised after the decision has
    been written; the transaction is what undoes it. *)
Example flow_exhausted_after_write :
  (record_decision_body 1 1 O_APPROVED "ok" 5 exhausted_db).2 = inl FlowExhausted
  ∧ (ExpenseApproval.status
       <$> expense_approvals
             (record_decision_body 1 1 O_APPROVED "ok" 5 exhausted_db).1 !! 1%nat)
    = Some A_APPROVED
  ∧ (ExpenseApproval.status <$> expense_approvals exhausted_db !! 1%nat)
    = Some A_PENDING.
Proof. vm_compute. done. Qed.

Lemma after_cases (c : Call) (db : DB) :
  after c db = db ∨ transition db c (after c db).
Proof.
  unfold after. destruct c as [e|e ak o cm now]; simpl.
  - unfold submit, atomic.
    destruct (submit_body e db) as [db' r] eqn:Hrun.
    apply submit_body_inv in Hrun
      as [(err & -> & ->)|(erow & flow & steps & first & -> & ? & ? & ? & ? & ? & ->)];
      simpl; [by left|].
    right. by econstructor.
  - unfold record_decision, atomic.
    destruct (record_decision_body e ak o cm now db) as [db' r] eqn:Hrun.
    apply record_decision_body_inv in Hrun
      as [(err & -> & -> & _)
         |(erow & arow & ? & ? & ? & ? & ? &
           [[-> ->]|[[-> ->]|[(err & -> & -> & _)|(steps & next & -> & ? & ? & ->)]]])];
      simpl; [by left| | |by left|].
    + right. econstructor; eauto.
    + right. econstructor; eauto.
    + right. by econstructor.
Qed.

Lemma lookup_decided ak o cm now db k a' :
  expense_approvals (decided ak o cm now db) !! k = Some a' →
  ∃ a, expense_approvals db !! k = Some a
       ∧ ((k = ak ∧ a' = decide_approval o cm now a) ∨ (k ≠ ak ∧ a' = a)).
Proof.
  unfold decided, update_approval. simpl.
  intros [(-> & a & Ha & ->)|[Hne Ha]]%lookup_alter_Some; eauto 10.
Qed.

Lemma lookup_activated e next db k a :
  expense_approvals (activated e next db) !! k = Some a →
  (k = fresh_pk (expense_approvals db)
   ∧ a = ExpenseApproval.mk e (ms_approver next) (Some (ms_step next))
           A_PENDING EmptyString None)
  ∨ ((k < fresh_pk (expense_approvals db))%nat ∧ expense_approvals db !! k = Some a).
Proof.
  unfold activated, insert_approval. simpl.
  intros [[<- <-]|[Hne Ha]]%lookup_insert_Some; [by left|].
  right. split; [|done]. apply fresh_pk_above. eauto.
Qed.

Lemma status_of_outcome_decided o : status_of_outcome o ≠ A_PENDING.
Proof. by destruct o. Qed.

Lemma step_order_decided a ak o cm now db :
  step_order a (decided ak o cm now db) = step_order a db.
Proof. reflexivity. Qed.

Lemma step_order_decide_approval a o cm now db :
  step_order (decide_approval o cm now a) db = step_order a db.
Proof. reflexivity. Qed.

Lemma activated_orders_elem e db k a o :
  expense_approvals db !! k = Some a → ExpenseApproval.expense a = e →
  step_order a db = Some o → o ∈ activated_orders e db.
Proof.
  intros Ha He Ho. unfold activated_orders.
  apply list_elem_of_omap. exists (k, a). split; [|done].
  unfold approvals_of. apply elem_of_map_to_list.
  by apply map_lookup_filter_Some.
Qed.

Lemma decided_preserves ak o cm now db arow :
  steps_known db → activated_in_order db →
  expense_approvals db !! ak = Some arow →
  ExpenseApproval.status arow = A_PENDING →
  steps_known (decided ak o cm now db)
  ∧ activated_in_order (decided ak o cm now db)
  ∧ ∀ k a, expense_approvals (decided ak o cm now db) !! k = Some a →
           ExpenseApproval.expense a = ExpenseApproval.expense arow →
           ExpenseApproval.status a ≠ A_PENDING.
Proof.
  intros Hknown Hord Harow Hpen. split; [|split].
  - intros k a' (a & Ha & [[-> ->]|[_ ->]])%lookup_decided;
      [rewrite step_order_decide_approval|]; rewrite step_order_decided;
      by eapply Hknown.
  - intros k1 k2 a1' a2' (a1 & H1 & C1)%lookup_decided (a2 & H2 & C2)%lookup_decided
      Hexp Hlt.
    assert (ExpenseApproval.expense a1 = ExpenseApproval.expense a2) as Hexp'.
    { destruct C1 as [[_ ->]|[_ ->]], C2 as [[_ ->]|[_ ->]]; done. }
    destruct (Hord k1 k2 a1 a2 H1 H2 Hexp' Hlt) as (Hst & o1 & o2 & Ho1 & Ho2 & Hlt').
    split.
    + destruct C1 as [[_ ->]|[_ ->]]; [apply status_of_outcome_decided|done].
    + exists o1, o2.
      destruct C1 as [[_ ->]|[_ ->]], C2 as [[_ ->]|[_ ->]];
        rewrite ?step_order_decide_approval, !step_order_decided; done.
  - intros k a' (a & Ha & [[-> ->]|[Hne ->]])%lookup_decided Hexp;
      [apply status_of_outcome_decided|].
    destruct (lt_eq_lt_dec k ak) as [[Hlt| ->]|Hlt]; [|done|].
    + by destruct (Hord k ak a arow Ha Harow Hexp Hlt).
    + destruct (Hord ak k arow a Harow Ha (eq_sym Hexp) Hlt) as [Hst _]. done.
Qed.

Lemma activated_preserves e next db s :
  steps_known db → activated_in_order db →
  flow_steps db !! ms_step next = Some s → ms_order next = FlowStep.order s →
  (∀ k a, expense_approvals db !! k = Some a → ExpenseApproval.expense a = e →
          ExpenseApproval.status a ≠ A_PENDING
          ∧ ∀ o, step_order a db = Some o → o < ms_order next) →
  steps_known (activated e next db) ∧ activated_in_order (activated e next db).
Proof.
  intros Hknown Hord Hs Hso Hold.
  assert (∀ a, step_order a (activated e next db) = step_order a db) as Hsame by done.
  split.
  - intros k a [[-> ->]|[_ Ha]]%lookup_activated; rewrite Hsame.
    + unfold step_order, step_of. simpl. rewrite Hs. eauto.
    + by eapply Hknown.
  - intros k1 k2 a1 a2 [[-> ->]|[Hk1 H1]]%lookup_activated
      [[-> ->]|[Hk2 H2]]%lookup_activated Hexp Hlt; rewrite !Hsame; try lia.
    + simpl in Hexp. destruct (Hold k1 a1 H1 Hexp) as [Hst Hlo].
      split; [done|].
      destruct (Hknown k1 a1 H1) as [o1 Ho1].
      exists o1, (ms_order next). split; [done|]. split; [|by apply Hlo].
      unfold step_order, step_of. simpl. rewrite Hs. simpl. by rewrite Hso.
    + by eapply Hord.
Qed.

Lemma transition_preserves db c db' :
  transition db c db' → Inv db → Inv db'.
Proof.
  intros Ht (Hdraft & Hknown & Hord).
  destruct Ht as [e erow flow steps first He Hst Hres Hmat Hnext
                 |e ak o cm now erow arow s He Hst Ha Hae Hpen Hs
                 |e ak o cm now erow arow steps next He Hst Ha Hae Hpen Hmat Hnext].
  - apply next_step_above in Hnext as [Hin _].
    destruct (materialize_steps_known _ _ _ _ _ Hmat Hin) as (s & Hs & Hso).
    destruct (activated_preserves e first db s Hknown Hord Hs Hso) as [Hk' Ho'].
    { intros k a Hka Hexp. by destruct (Hdraft e erow k a He Hst Hka). }
    split; [|split]; [|exact Hk'|exact Ho'].
    intros k e' ak a Hk Hd Hak.
    unfold submitted, update_expense in Hk. simpl in Hk.
    apply lookup_alter_Some in Hk as [(-> & x & _ & ->)|[Hne Hk]]; [done|].
    apply lookup_activated in Hak as [[_ ->]|[_ Hak]]; simpl; [done|].
    by eapply Hdraft.
  - destruct (decided_preserves ak o cm now db arow Hknown Hord Ha Hpen)
      as (Hk' & Ho' & _).
    split; [|split]; [|exact Hk'|exact Ho'].
    intros k e' ak' a Hk Hd Hak.
    unfold update_expense in Hk. simpl in Hk.
    apply lookup_alter_Some in Hk as [(-> & x & _ & ->)|[Hne Hk]].
    { simpl in Hd. by destruct Hs as [-> | ->]. }
    apply lookup_decided in Hak as (a0 & Ha0 & [[-> ->]|[_ ->]]);
      by eapply (Hdraft k e' _ a0).
  - destruct (decided_preserves ak o cm now db arow Hknown Hord Ha Hpen)
      as (Hk' & Ho' & Hall).
    apply next_step_above in Hnext as [Hin Habove].
    destruct (materialize_steps_known _ _ _ _ _ Hmat Hin) as (s & Hs & Hso).
    destruct (activated_preserves e next _ s Hk' Ho' Hs Hso) as [Hk'' Ho''].
    { intros k a Hka Hexp. split.
      - eapply Hall; [done|]. by rewrite Hae.
      - intros o' Ho1. apply Habove. by eapply activated_orders_elem. }
    split; [|split]; [|exact Hk''|exact Ho''].
    intros k e' ak' a Hk Hd Hak.
    apply lookup_activated in Hak as [[_ ->]|[_ Hak]]; simpl.
    { intros ->. simpl in Hk. change (expenses db !! k = Some e') in Hk. congruence. }
    apply lookup_decided in Hak as (a0 & Ha0 & [[-> ->]|[_ ->]]);
      by eapply (Hdraft k e' _ a0).
Qed.

Lemma reachable_Inv db0 db : reachable db0 db → Inv db0 → Inv db.
Proof.
  induction 1 as [|db c Hr IH]; [done|]. intros H0.
  destruct (after_cases c db) as [->|Ht]; [by apply IH|].
  eapply transition_preserves; [done|by apply IH].
Qed.

Lemma Inv_no_approvals db : expense_approvals db = ∅ → Inv db.
Proof.
  intros He. split; [|split].
  - intros k e ak a _ _ Ha. by rewrite He in Ha.
  - intros ak a Ha. by rewrite He in Ha.
  - intros k1 k2 a1 a2 Ha. by rewrite He in Ha.
Qed.

(** C2: in every state reached by [submit] and [record_decision] from a
    database without approvals, each expense has at most one PENDING
    approval, and of two approvals of one expense the earlier one is decided
    and its step has the strictly smaller order. *)
Theorem single_open_step (db0 db : DB) :
  expense_approvals db0 = ∅ →
  reachable db0 db →
  (∀ e, (pending_count e db ≤ 1)%nat)
  ∧ activated_in_order db.
Proof.
  intros H0 Hr.
  destruct (reachable_Inv db0 db Hr (Inv_no_approvals db0 H0)) as (_ & _ & Hord).
  split; [|done].
  intros e. unfold pending_count. apply map_size_le_1.
  intros k1 k2 [a1 [H1 [He1 Hp1]]%map_lookup_filter_Some]
    [a2 [H2 [He2 Hp2]]%map_lookup_filter_Some].
  simpl in *.
  destruct (lt_eq_lt_dec k1 k2) as [[Hlt|Heq]|Hlt]; [|done|].
  - destruct (Hord k1 k2 a1 a2 H1 H2) as [Hst _]; [congruence|done|done].
  - destruct (Hord k2 k1 a2 a1 H2 H1) as [Hst _]; [congruence|done|done].
Qed.

Lemma single_open_step_witness :
  (∀ e, (pending_count e acme_manager_approved ≤ 1)%nat)
  ∧ activated_in_order acme_manager_approved.
Proof.
  apply (single_open_step acme_db acme_manager_approved); [reflexivity|].
  unfold acme_manager_approved, acme_submitted. repeat constructor.
Defined.

(** In that state the manager's approval is decided and the CFO's is the
    one open step. *)
Example acme_one_pending :
  pending_count 1 acme_manager_approved = 1%nat
  ∧ (ExpenseApproval.status <$> expense_approvals acme_manager_approved !! 1%nat)
    = Some A_APPROVED
  ∧ (ExpenseApproval.status <$> expense_approvals acme_manager_approved !! 2%nat)
    = Some A_PENDING.
Proof. vm_compute. done. Qed.

(** The scenario of the specification ends REJECTED when the CFO rejects. *)
Example acme_cfo_rejects :
  Expense.status
    <$> expenses (after (RecordDecision 1 2 O_REJECTED "no" 6) acme_manager_approved)
        !! 1%nat
  = Some REJECTED.
Proof. vm_compute. reflexivity. Qed.

(** C9: an expense created without a status is DRAFT; a call of the engine
    keeps every expense, makes one PENDING only by submitting it from
    DRAFT, and leaves an APPROVED or REJECTED expense as it is. *)
Theorem expense_status_lifecycle :
  (∀ employee description category amount currency_code currency_symbol
     converted_amount converted_currency_code converted_currency_symbol
     expense_date now receipt approval_rule flow,
      Expense.status
        (Expense.create employee description category amount currency_code
           currency_symbol converted_amount converted_currency_code
           converted_currency_symbol expense_date now receipt None
           approval_rule flow) = DRAFT)
  ∧ (∀ c db k e,
      expenses db !! k = Some e →
      ∃ e', expenses (after c db) !! k = Some e'
            ∧ (Expense.status e' = PENDING → Expense.status e ≠ PENDING →
               c = Submit k ∧ Expense.status e = DRAFT)
            ∧ (Expense.status e = APPROVED ∨ Expense.status e = REJECTED →
               e' = e)).
Proof.
  split; [reflexivity|].
  intros c db k e Hk.
  destruct (after_cases c db) as [->|Ht].
  { exists e. split; [done|]. split; [congruence|done]. }
  destruct Ht as [e0 erow flow steps first He Hst Hres Hmat Hnext
                 |e0 ak o cm now erow arow s He Hst Ha Hae Hpen Hs
                 |e0 ak o cm now erow arow steps next He Hst Ha Hae Hpen Hmat Hnext].
  - unfold submitted, update_expense; simpl.
    change (expenses (activated e0 first db)) with (expenses db).
    destruct (decide (e0 = k)) as [->|Hne].
    + rewrite lookup_alter_eq, Hk. simpl. eexists. split; [done|].
      assert (erow = e) as -> by congruence.
      split; [done|]. intros [H|H]; congruence.
    + rewrite lookup_alter_ne by done. exists e. split; [done|].
      split; [congruence|done].
  - unfold update_expense; simpl.
    change (expenses (decided ak o cm now db)) with (expenses db).
    destruct (decide (e0 = k)) as [->|Hne].
    + rewrite lookup_alter_eq, Hk. simpl. eexists. split; [done|].
      assert (erow = e) as -> by congruence.
      split.
      * simpl. intros H. destruct Hs as [-> | ->]; discriminate.
      * intros [H|H]; congruence.
    + rewrite lookup_alter_ne by done. exists e. split; [done|].
      split; [congruence|done].
  - exists e. split; [exact Hk|]. split; [congruence|done].
Qed.

Lemma expense_status_lifecycle_witness :
  ∃ e', expenses (after (Submit 1) acme_db) !! 1%nat = Some e'
        ∧ (Expense.status e' = PENDING →
           Expense.status (Expense.create 2 "Taxi" "Travel" 500000 "INR" "Rs"
                             500000 "INR" "Rs" 0 0 None None None None) ≠ PENDING →
           Submit 1 = Submit 1
           ∧ Expense.status (Expense.create 2 "Taxi" "Travel" 500000 "INR" "Rs"
                               500000 "INR" "Rs" 0 0 None None None None) = DRAFT)
        ∧ (Expense.status (Expense.create 2 "Taxi" "Travel" 500000 "INR" "Rs"
                             500000 "INR" "Rs" 0 0 None None None None) = APPROVED
           ∨ Expense.status (Expense.create 2 "Taxi" "Travel" 500000 "INR" "Rs"
                               500000 "INR" "Rs" 0 0 None None None None) = REJECTED →
           e' = Expense.create 2 "Taxi" "Travel" 500000 "INR" "Rs"
                  500000 "INR" "Rs" 0 0 None None None None).
Proof.
  apply (proj2 expense_status_lifecycle (Submit 1) acme_db 1%nat).
  reflexivity.
Defined.

(* ===================================================================== *)
(** ** Referential integrity under deletion                              *)
(* ===================================================================== *)

Section integrity.
Context {A B : Type}.
Implicit Types (src : gmap nat A) (tgt : gmap nat B) (fk : A → option nat)
  (gone : gset nat).

Lemma fk_ok_drop_src gone src fk tgt :
  fk_ok src fk tgt → fk_ok (drop_rows gone src) fk tgt.
Proof.
  intros H k r t Hk. rewrite lookup_drop_rows in Hk.
  destruct (decide (k ∈ gone)); [done|]. by eapply H.
Qed.

Lemma fk_ok_set_null_src (refers : A → bool) (clear : A → A) src fk tgt :
  (∀ r, fk (clear r) = fk r ∨ fk (clear r) = None) →
  fk_ok src fk tgt → fk_ok (set_null refers clear src) fk tgt.
Proof.
  intros Hc H k r t Hk Hfk. rewrite lookup_set_null in Hk.
  destruct (src !! k) as [r0|] eqn:E; [|done]. simpl in Hk. simplify_eq.
  destruct (refers r0); [|by eapply H].
  destruct (Hc r0) as [Heq|Heq]; rewrite Heq in Hfk; [by eapply H|done].
Qed.

Lemma fk_ok_set_null_tgt (refers : B → bool) (clear : B → B) src fk tgt :
  fk_ok src fk tgt → fk_ok src fk (set_null refers clear tgt).
Proof.
  intros H k r t Hk Hfk. rewrite lookup_set_null.
  destruct (H k r t Hk Hfk) as [x ->]. simpl. eauto.
Qed.

Lemma fk_ok_drop_tgt gone src fk tgt :
  fk_ok src fk tgt → unreferenced src fk gone →
  fk_ok src fk (drop_rows gone tgt).
Proof.
  intros H Hun k r t Hk Hfk. rewrite lookup_drop_rows.
  rewrite decide_False by (by eapply Hun). by eapply H.
Qed.

Lemma unreferenced_drop_src gone' gone src fk :
  unreferenced src fk gone → unreferenced (drop_rows gone' src) fk gone.
Proof.
  intros H k r t Hk. rewrite lookup_drop_rows in Hk.
  destruct (decide (k ∈ gone')); [done|]. by eapply H.
Qed.

Lemma unreferenced_set_null_src (refers : A → bool) (clear : A → A) gone src fk :
  (∀ r, fk (clear r) = fk r ∨ fk (clear r) = None) →
  unreferenced src fk gone → unreferenced (set_null refers clear src) fk gone.
Proof.
  intros Hc H k r t Hk Hfk. rewrite lookup_set_null in Hk.
  destruct (src !! k) as [r0|] eqn:E; [|done]. simpl in Hk. simplify_eq.
  destruct (refers r0); [|by eapply H].
  destruct (Hc r0) as [Heq|Heq]; rewrite Heq in Hfk; [by eapply H|done].
Qed.

(** After [CASCADE]: the referring rows are gone. *)
Lemma unreferenced_cascade (refers : A → bool) gone src fk :
  (∀ r t, fk r = Some t → t ∈ gone → refers r = true) →
  unreferenced (drop_rows (referring refers src) src) fk gone.
Proof.
  intros Href k r t Hk Hfk Hin. rewrite lookup_drop_rows in Hk.
  destruct (decide (k ∈ referring refers src)) as [|Hn]; [done|].
  apply Hn, elem_of_referring. eauto.
Qed.

Lemma unreferenced_cascade_set_null (refers refers' : A → bool) (clear : A → A)
    gone src fk :
  (∀ r t, fk r = Some t → t ∈ gone → refers r = true) →
  (∀ r, fk (clear r) = fk r) →
  unreferenced (drop_rows (referring refers src) (set_null refers' clear src)) fk gone.
Proof.
  intros Href Hc k r t Hk Hfk Hin. rewrite lookup_drop_rows in Hk.
  destruct (decide (k ∈ referring refers src)) as [|Hn]; [done|].
  rewrite lookup_set_null in Hk.
  destruct (src !! k) as [r0|] eqn:E; [|done]. simpl in Hk. simplify_eq.
  apply Hn, elem_of_referring. exists r0. split; [done|].
  apply (Href r0 t); [|done].
  destruct (refers' r0); [by rewrite <- Hc|done].
Qed.

(** After [SET_NULL]: the referring columns are NULL. *)
Lemma unreferenced_set_null (refers : A → bool) (clear : A → A) gone src fk :
  (∀ r t, fk r = Some t → t ∈ gone → refers r = true) →
  (∀ r, fk (clear r) = None) →
  unreferenced (set_null refers clear src) fk gone.
Proof.
  intros Href Hc k r t Hk Hfk Hin. rewrite lookup_set_null in Hk.
  destruct (src !! k) as [r0|] eqn:E; [|done]. simpl in Hk. simplify_eq.
  destruct (refers r0) eqn:Hr; [by rewrite Hc in Hfk|].
  rewrite (Href r0 t Hfk Hin) in Hr. done.
Qed.
End integrity.

Lemma points_at_opt_refers gone (fk : option nat) t :
  fk = Some t → t ∈ gone → points_at_opt gone fk = true.
Proof. intros -> H. simpl. by apply bool_decide_eq_true_2. Qed.

Lemma points_at_refers gone (fk t : nat) :
  Some fk = Some t → t ∈ gone → points_at gone fk = true.
Proof. intros [= ->] H. by apply bool_decide_eq_true_2. Qed.

Ltac fk_side :=
  solve [ intros []; simpl; auto
        | intros ? ? ? ?; simpl in *;
          first [ eapply points_at_opt_refers; eassumption
                | eapply points_at_refers; eassumption ] ].

Ltac fk_unref :=
  first
    [ assumption
    | apply unreferenced_cascade; fk_side
    | apply unreferenced_cascade_set_null; [fk_side | intros []; reflexivity]
    | apply unreferenced_set_null; fk_side
    | apply unreferenced_drop_src; fk_unref
    | apply unreferenced_set_null_src; [fk_side | fk_unref] ].

Ltac fk_solve :=
  first
    [ assumption
    | apply fk_ok_drop_tgt; [fk_solve | fk_unref]
    | apply fk_ok_set_null_tgt; fk_solve
    | apply fk_ok_drop_src; fk_solve
    | apply fk_ok_set_null_src; [fk_side | fk_solve] ].

Lemma delete_ExpenseApprovals_consistent gone db :
  consistent db → consistent (delete_ExpenseApprovals gone db).
Proof. intros []. constructor; simpl; fk_solve. Qed.

Lemma delete_FlowSteps_consistent gone db :
  consistent db → consistent (delete_FlowSteps gone db).
Proof. intros []. constructor; simpl; fk_solve. Qed.

Lemma delete_Expenses_consistent gone db :
  consistent db → consistent (delete_Expenses gone db).
Proof. intros []. constructor; simpl; fk_solve. Qed.

Lemma delete_Users_consistent gone db :
  consistent db → consistent (delete_Users gone db).
Proof. intros []. constructor; simpl; fk_solve. Qed.

Lemma delete_ApprovalRules_consistent gone db :
  consistent db → consistent (delete_ApprovalRules gone db).
Proof. intros []. constructor; simpl; fk_solve. Qed.

Lemma delete_ApprovalFlows_consistent gone db :
  consistent db → consistent (delete_ApprovalFlows gone db).
Proof. intros []. constructor; simpl; fk_solve. Qed.

Lemma delete_Departments_consistent gone db :
  consistent db → consistent (delete_Departments gone db).
Proof. intros []. constructor; simpl; fk_solve. Qed.

Lemma delete_Companies_consistent gone db :
  consistent db → consistent (delete_Companies gone db).
Proof. intros []. constructor; simpl; fk_solve. Qed.

Section identity.
Context {A : Type}.
Implicit Types (tbl : gmap nat A) (gone : gset nat).

Lemma referring_empty (refers : A → bool) tbl :
  (∀ k r, tbl !! k = Some r → refers r = false) → referring refers tbl = ∅.
Proof.
  intros H. apply set_eq. intros k. rewrite elem_of_referring.
  split; [|set_solver]. intros (r & Hr & Ht). rewrite (H k r Hr) in Ht. done.
Qed.

Lemma drop_rows_absent gone tbl :
  (∀ k, k ∈ gone → tbl !! k = None) → drop_rows gone tbl = tbl.
Proof.
  intros H. apply map_eq. intros k. rewrite lookup_drop_rows.
  destruct (decide (k ∈ gone)); [by rewrite H|done].
Qed.

Lemma set_null_none (refers : A → bool) (clear : A → A) tbl :
  (∀ k r, tbl !! k = Some r → refers r = false) →
  set_null refers clear tbl = tbl.
Proof.
  intros H. apply map_eq. intros k. rewrite lookup_set_null.
  destruct (tbl !! k) as [r|] eqn:E; [|done]. simpl. by rewrite (H k r E).
Qed.
End identity.

Lemma points_at_empty fk : points_at ∅ fk = false.
Proof. unfold points_at. by apply bool_decide_eq_false_2. Qed.

Lemma points_at_opt_empty fk : points_at_opt ∅ fk = false.
Proof. destruct fk as [k|]; [apply (points_at_empty k)|done]. Qed.

Lemma DB_eta db :
  mkDB (companies db) (departments db) (users db) (approval_rules db)
       (approval_flows db) (flow_steps db) (expenses db) (expense_approvals db) = db.
Proof. by destruct db. Qed.

Ltac empty_table :=
  first
    [ rewrite drop_rows_absent by set_solver
    | rewrite set_null_none by (intros; apply points_at_opt_empty)
    | rewrite referring_empty by (intros; first [apply points_at_empty | apply points_at_opt_empty]) ].

Lemma delete_ExpenseApprovals_empty db : delete_ExpenseApprovals ∅ db = db.
Proof.
  unfold delete_ExpenseApprovals, with_expense_approvals.
  repeat empty_table. apply DB_eta.
Qed.

Lemma delete_FlowSteps_empty db : delete_FlowSteps ∅ db = db.
Proof.
  unfold delete_FlowSteps, with_expense_approvals, with_flow_steps; simpl.
  repeat empty_table. apply DB_eta.
Qed.

Lemma delete_Expenses_empty db : delete_Expenses ∅ db = db.
Proof.
  unfold delete_Expenses. repeat empty_table.
  rewrite delete_ExpenseApprovals_empty.
  unfold with_expenses. repeat empty_table. apply DB_eta.
Qed.

Lemma delete_Users_empty db : delete_Users ∅ db = db.
Proof.
  unfold delete_Users. repeat empty_table.
  rewrite delete_FlowSteps_empty. repeat empty_table.
  rewrite delete_Expenses_empty. repeat empty_table.
  rewrite delete_ExpenseApprovals_empty.
  unfold with_users, with_approval_rules; simpl.
  repeat empty_table. apply DB_eta.
Qed.

Lemma delete_ApprovalRules_empty db : delete_ApprovalRules ∅ db = db.
Proof.
  unfold delete_ApprovalRules, with_approval_flows, with_expenses,
    with_approval_rules; simpl.
  repeat empty_table. apply DB_eta.
Qed.

Lemma delete_ApprovalFlows_empty db : delete_ApprovalFlows ∅ db = db.
Proof.
  unfold delete_ApprovalFlows. repeat empty_table.
  rewrite delete_FlowSteps_empty.
  unfold with_approval_flows, with_expenses; simpl.
  repeat empty_table. apply DB_eta.
Qed.

Lemma delete_Departments_empty db : delete_Departments ∅ db = db.
Proof.
  unfold delete_Departments, with_users, with_approval_flows, with_departments; simpl.
  repeat empty_table. apply DB_eta.
Qed.

Lemma delete_Companies_empty db : delete_Companies ∅ db = db.
Proof.
  unfold delete_Companies. repeat empty_table.
  rewrite delete_Departments_empty. repeat empty_table.
  rewrite delete_Users_empty. repeat empty_table.
  rewrite delete_ApprovalRules_empty. repeat empty_table.
  rewrite delete_ApprovalFlows_empty.
  unfold with_companies. repeat empty_table. apply DB_eta.
Qed.

Lemma referring_unreferenced {A} (refers : A → bool) (src : gmap nat A)
    (fk : A → option nat) (gone : gset nat) :
  unreferenced src fk gone →
  (∀ r, refers r = true → ∃ t, fk r = Some t ∧ t ∈ gone) →
  referring refers src = ∅.
Proof.
  intros Hun Href. apply referring_empty. intros k r Hk.
  destruct (refers r) eqn:E; [|done].
  destruct (Href r E) as (t & Hfk & Hin). by destruct (Hun k r t Hk Hfk).
Qed.

Lemma set_null_unreferenced {A} (clear : A → A) (src : gmap nat A)
    (fk : A → option nat) (gone : gset nat) :
  unreferenced src fk gone →
  set_null (λ r, points_at_opt gone (fk r)) clear src = src.
Proof.
  intros Hun. apply set_null_none. intros k r Hk.
  destruct (fk r) as [t|] eqn:Hfk; [|done]. simpl.
  apply bool_decide_eq_false_2. by eapply Hun.
Qed.

Lemma points_at_true gone (k : nat) :
  points_at gone k = true → ∃ t, Some k = Some t ∧ t ∈ gone.
Proof. intros H%bool_decide_eq_true_1. eauto. Qed.

Lemma points_at_opt_true gone (fk : option nat) :
  points_at_opt gone fk = true → ∃ t, fk = Some t ∧ t ∈ gone.
Proof. destruct fk; [|done]. intros H%bool_decide_eq_true_1. eauto. Qed.

Ltac unref_ref tbl H :=
  rewrite (referring_unreferenced _ tbl _ _ H)
    by (intros ?; first [apply points_at_true | apply points_at_opt_true]).

Lemma delete_FlowSteps_unreferenced gone db :
  unreferenced (expense_approvals db) ExpenseApproval.flow_step gone →
  (∀ k, k ∈ gone → flow_steps db !! k = None) →
  delete_FlowSteps gone db = db.
Proof.
  intros H1 Habs.
  unfold delete_FlowSteps, with_expense_approvals, with_flow_steps; simpl.
  rewrite (set_null_unreferenced _ _ _ _ H1), drop_rows_absent by done.
  apply DB_eta.
Qed.

Lemma delete_Expenses_unreferenced gone db :
  unreferenced (expense_approvals db) (λ a, Some (ExpenseApproval.expense a)) gone →
  (∀ k, k ∈ gone → expenses db !! k = None) →
  delete_Expenses gone db = db.
Proof.
  intros H1 Habs. unfold delete_Expenses.
  unref_ref (expense_approvals db) H1. rewrite delete_ExpenseApprovals_empty.
  unfold with_expenses. rewrite drop_rows_absent by done. apply DB_eta.
Qed.

Lemma delete_Users_unreferenced gone db :
  unreferenced (flow_steps db) (λ s, Some (FlowStep.approver s)) gone →
  unreferenced (expenses db) (λ e, Some (Expense.employee e)) gone →
  unreferenced (expense_approvals db) (λ a, Some (ExpenseApproval.approver a)) gone →
  unreferenced (approval_rules db) ApprovalRule.specific_approver gone →
  unreferenced (users db) User.manager gone →
  (∀ k, k ∈ gone → users db !! k = None) →
  delete_Users gone db = db.
Proof.
  intros H1 H2 H3 H4 H5 Habs. unfold delete_Users.
  unref_ref (flow_steps db) H1. rewrite delete_FlowSteps_empty.
  unref_ref (expenses db) H2. rewrite delete_Expenses_empty.
  unref_ref (expense_approvals db) H3. rewrite delete_ExpenseApprovals_empty.
  unfold with_users, with_approval_rules; simpl.
  rewrite (set_null_unreferenced _ _ _ _ H4), (set_null_unreferenced _ _ _ _ H5).
  rewrite drop_rows_absent by done. apply DB_eta.
Qed.

Lemma delete_ApprovalRules_unreferenced gone db :
  unreferenced (approval_flows db) ApprovalFlow.rule gone →
  unreferenced (expenses db) Expense.approval_rule gone →
  (∀ k, k ∈ gone → approval_rules db !! k = None) →
  delete_ApprovalRules gone db = db.
Proof.
  intros H1 H2 Habs.
  unfold delete_ApprovalRules, with_approval_flows, with_expenses,
    with_approval_rules; simpl.
  rewrite (set_null_unreferenced _ _ _ _ H1), (set_null_unreferenced _ _ _ _ H2).
  rewrite drop_rows_absent by done. apply DB_eta.
Qed.

Lemma delete_ApprovalFlows_unreferenced gone db :
  unreferenced (flow_steps db) (λ s, Some (FlowStep.flow s)) gone →
  unreferenced (expenses db) Expense.flow gone →
  (∀ k, k ∈ gone → approval_flows db !! k = None) →
  delete_ApprovalFlows gone db = db.
Proof.
  intros H1 H2 Habs. unfold delete_ApprovalFlows.
  unref_ref (flow_steps db) H1. rewrite delete_FlowSteps_empty.
  unfold with_approval_flows, with_expenses; simpl.
  rewrite (set_null_unreferenced _ _ _ _ H2).
  rewrite drop_rows_absent by done. apply DB_eta.
Qed.

Lemma delete_Departments_unreferenced gone db :
  unreferenced (users db) User.department gone →
  unreferenced (approval_flows db) ApprovalFlow.department gone →
  (∀ k, k ∈ gone → departments db !! k = None) →
  delete_Departments gone db = db.
Proof.
  intros H1 H2 Habs.
  unfold delete_Departments, with_users, with_approval_flows, with_departments; simpl.
  rewrite (set_null_unreferenced _ _ _ _ H1), (set_null_unreferenced _ _ _ _ H2).
  rewrite drop_rows_absent by done. apply DB_eta.
Qed.

Lemma delete_Companies_unreferenced gone db :
  unreferenced (departments db) (λ d, Some (Department.company d)) gone →
  unreferenced (users db) User.company gone →
  unreferenced (approval_rules db) (λ r, Some (ApprovalRule.company r)) gone →
  unreferenced (approval_flows db) (λ f, Some (ApprovalFlow.company f)) gone →
  (∀ k, k ∈ gone → companies db !! k = None) →
  delete_Companies gone db = db.
Proof.
  intros H1 H2 H3 H4 Habs. unfold delete_Companies.
  unref_ref (departments db) H1. rewrite delete_Departments_empty.
  unref_ref (users db) H2. rewrite delete_Users_empty.
  unref_ref (approval_rules db) H3. rewrite delete_ApprovalRules_empty.
  unref_ref (approval_flows db) H4. rewrite delete_ApprovalFlows_empty.
  unfold with_companies. rewrite drop_rows_absent by done. apply DB_eta.
Qed.

(** A key that is absent from a table is referenced by no consistent
    foreign key. *)
Lemma absent_unreferenced {A B} (src : gmap nat A) (fk : A → option nat)
    (tgt : gmap nat B) (pk : nat) :
  fk_ok src fk tgt → tgt !! pk = None → unreferenced src fk {[ pk ]}.
Proof.
  intros Hok Habs k r t Hk Hfk ->%elem_of_singleton.
  destruct (Hok k r pk Hk Hfk) as [x Hx]. congruence.
Qed.

Lemma fk_check_ok {A B} (src : gmap nat A) (fk : A → option nat) (tgt : gmap nat B) :
  fk_check src fk tgt = true ↔ fk_ok src fk tgt.
Proof.
  unfold fk_check. rewrite forallb_forall. split.
  - intros H k r t Hk Hfk.
    assert (In (k, r) (map_to_list src)) as Hin
      by (by apply list_elem_of_In, elem_of_map_to_list).
    apply H in Hin. simpl in Hin. rewrite Hfk in Hin.
    by apply bool_decide_eq_true in Hin.
  - intros H [k r] Hin%list_elem_of_In%elem_of_map_to_list. simpl.
    destruct (fk r) as [t|] eqn:Hfk; [|done].
    apply bool_decide_eq_true_2. by eapply H.
Qed.

Lemma check_integrity_consistent db : check_integrity db = true ↔ consistent db.
Proof.
  unfold check_integrity. rewrite !andb_true_iff, !fk_check_ok. split.
  - intros. by constructor; intuition.
  - intros []. by intuition.
Qed.

Lemma acme_db_consistent : consistent acme_db.
Proof. apply check_integrity_consistent. vm_compute. reflexivity. Qed.

(** X1: deletion keeps referential integrity: when every foreign key of
    the database points at an existing row, the same holds after deleting
    any set of rows of any model, with the cascades and null-settings of
    the [on_delete] policies. *)
Theorem delete_keeps_integrity (gone : gset nat) (db : DB) :
  consistent db →
  consistent (delete_Companies gone db)
  ∧ consistent (delete_Departments gone db)
  ∧ consistent (delete_Users gone db)
  ∧ consistent (delete_ApprovalRules gone db)
  ∧ consistent (delete_ApprovalFlows gone db)
  ∧ consistent (delete_FlowSteps gone db)
  ∧ consistent (delete_Expenses gone db)
  ∧ consistent (delete_ExpenseApprovals gone db).
Proof.
  intros H. repeat apply conj.
  - by apply delete_Companies_consistent.
  - by apply delete_Departments_consistent.
  - by apply delete_Users_consistent.
  - by apply delete_ApprovalRules_consistent.
  - by apply delete_ApprovalFlows_consistent.
  - by apply delete_FlowSteps_consistent.
  - by apply delete_Expenses_consistent.
  - by apply delete_ExpenseApprovals_consistent.
Qed.

Lemma delete_keeps_integrity_witness :
  consistent (delete_Companies {[ 1%nat ]} acme_db)
  ∧ consistent (delete_Departments {[ 1%nat ]} acme_db)
  ∧ consistent (delete_Users {[ 1%nat ]} acme_db)
  ∧ consistent (delete_ApprovalRules {[ 1%nat ]} acme_db)
  ∧ consistent (delete_ApprovalFlows {[ 1%nat ]} acme_db)
  ∧ consistent (delete_FlowSteps {[ 1%nat ]} acme_db)
  ∧ consistent (delete_Expenses {[ 1%nat ]} acme_db)
  ∧ consistent (delete_ExpenseApprovals {[ 1%nat ]} acme_db).
Proof.
  apply (delete_keeps_integrity {[ 1%nat ]} acme_db).
  apply check_integrity_consistent. vm_compute. reflexivity.
Defined.

Ltac absent_side H :=
  first [ by eapply absent_unreferenced | by intros ? ->%elem_of_singleton ].

(** X2: on a consistent database, deleting a primary key that is not in
    its table changes nothing, in any table. *)
Theorem delete_absent_changes_nothing (pk : nat) (db : DB) :
  consistent db →
  (companies db !! pk = None → delete_Company pk db = db)
  ∧ (departments db !! pk = None → delete_Department pk db = db)
  ∧ (users db !! pk = None → delete_User pk db = db)
  ∧ (approval_rules db !! pk = None → delete_ApprovalRule pk db = db)
  ∧ (approval_flows db !! pk = None → delete_ApprovalFlow pk db = db)
  ∧ (flow_steps db !! pk = None → delete_FlowStep pk db = db)
  ∧ (expenses db !! pk = None → delete_Expense pk db = db).
Proof.
  intros []. repeat apply conj; intros Habs.
  - apply delete_Companies_unreferenced; absent_side Habs.
  - apply delete_Departments_unreferenced; absent_side Habs.
  - apply delete_Users_unreferenced; absent_side Habs.
  - apply delete_ApprovalRules_unreferenced; absent_side Habs.
  - apply delete_ApprovalFlows_unreferenced; absent_side Habs.
  - apply delete_FlowSteps_unreferenced; absent_side Habs.
  - apply delete_Expenses_unreferenced; absent_side Habs.
Qed.

Lemma delete_absent_changes_nothing_witness : delete_User 9 acme_db = acme_db.
Proof.
  apply (delete_absent_changes_nothing 9 acme_db);
    [apply check_integrity_consistent; vm_compute; reflexivity | reflexivity].
Defined.

Lemma lookup_drop_rows_gone {A} (gone : gset nat) (tbl : gmap nat A) k :
  k ∈ gone → drop_rows gone tbl !! k = None.
Proof. intros H. rewrite lookup_drop_rows. by rewrite decide_True. Qed.

Ltac twice_side :=
  first [ by (simpl; fk_unref)
        | by (intros; simpl; apply lookup_drop_rows_gone) ].

(** X3: deleting the same rows a second time changes nothing. *)
Theorem delete_twice (gone : gset nat) (db : DB) :
  delete_Companies gone (delete_Companies gone db) = delete_Companies gone db
  ∧ delete_Departments gone (delete_Departments gone db) = delete_Departments gone db
  ∧ delete_Users gone (delete_Users gone db) = delete_Users gone db
  ∧ delete_ApprovalRules gone (delete_ApprovalRules gone db)
    = delete_ApprovalRules gone db
  ∧ delete_ApprovalFlows gone (delete_ApprovalFlows gone db)
    = delete_ApprovalFlows gone db
  ∧ delete_FlowSteps gone (delete_FlowSteps gone db) = delete_FlowSteps gone db
  ∧ delete_Expenses gone (delete_Expenses gone db) = delete_Expenses gone db
  ∧ delete_ExpenseApprovals gone (delete_ExpenseApprovals gone db)
    = delete_ExpenseApprovals gone db.
Proof.
  repeat apply conj.
  - apply delete_Companies_unreferenced; twice_side.
  - apply delete_Departments_unreferenced; twice_side.
  - apply delete_Users_unreferenced; twice_side.
  - apply delete_ApprovalRules_unreferenced; twice_side.
  - apply delete_ApprovalFlows_unreferenced; twice_side.
  - apply delete_FlowSteps_unreferenced; twice_side.
  - apply delete_Expenses_unreferenced; twice_side.
  - unfold delete_ExpenseApprovals at 1. unfold with_expense_approvals.
    rewrite drop_rows_absent; [apply DB_eta|].
    intros; simpl; by apply lookup_drop_rows_gone.
Qed.

(* ===================================================================== *)
(** ** What a deletion removes and what it keeps                         *)
(* ===================================================================== *)

Lemma lookup_referring_singleton {A} (f : A → nat) (tbl : gmap nat A) pk k :
  k ∈ referring (λ r, points_at {[ pk ]} (f r)) tbl
  ↔ ∃ r, tbl !! k = Some r ∧ f r = pk.
Proof.
  rewrite elem_of_referring. setoid_rewrite points_at_singleton.
  setoid_rewrite bool_decide_eq_true. done.
Qed.

Lemma lookup_referring_opt_singleton {A} (f : A → option nat) (tbl : gmap nat A) pk k :
  k ∈ referring (λ r, points_at_opt {[ pk ]} (f r)) tbl
  ↔ ∃ r, tbl !! k = Some r ∧ f r = Some pk.
Proof.
  rewrite elem_of_referring. setoid_rewrite points_at_opt_singleton.
  setoid_rewrite bool_decide_eq_true. done.
Qed.

Lemma points_at_opt_departments c db fk :
  points_at_opt
    (referring (λ d, points_at {[c]} (Department.company d)) (departments db)) fk
  = department_of_company c db fk.
Proof.
  unfold department_of_company. destruct fk as [k|]; simpl; [|done].
  apply bool_decide_ext. rewrite lookup_referring_singleton. split.
  - intros (d & -> & <-). done.
  - destruct (departments db !! k) as [d|]; [|done]. intros [= <-]. eauto.
Qed.

Lemma points_at_opt_users c db (refers : User.t → bool) fk :
  points_at_opt
    (referring (λ u, points_at_opt {[c]} (User.company u))
       (set_null refers (User.set_department None) (users db))) fk
  = user_of_company c db fk.
Proof.
  unfold user_of_company. destruct fk as [k|]; simpl; [|done].
  apply bool_decide_ext. rewrite lookup_referring_opt_singleton.
  rewrite lookup_set_null. split.
  - intros (u' & Hu' & Hc). destruct (users db !! k) as [u|]; [|done].
    simpl in *. injection Hu' as <-. by destruct (refers u).
  - destruct (users db !! k) as [u|]; [|done]. simpl. intros Hc.
    eexists. split; [done|]. by destruct (refers u).
Qed.

Lemma points_at_opt_rules c db (refers : ApprovalRule.t → bool) fk :
  points_at_opt
    (referring (λ r, points_at {[c]} (ApprovalRule.company r))
       (set_null refers (ApprovalRule.set_specific_approver None)
          (approval_rules db))) fk
  = rule_of_company c db fk.
Proof.
  unfold rule_of_company. destruct fk as [k|]; simpl; [|done].
  apply bool_decide_ext. rewrite lookup_referring_singleton.
  rewrite lookup_set_null. split.
  - intros (r' & Hr' & Hc). destruct (approval_rules db !! k) as [r|]; [|done].
    simpl in *. injection Hr' as <-. f_equal. by destruct (refers r).
  - destruct (approval_rules db !! k) as [r|]; [|done]. simpl. intros [= Hc].
    eexists. split; [done|]. by destruct (refers r).
Qed.

(** X4: deleting a company removes it and exactly its departments, users,
    rules and flows; the other companies are untouched, and each row of
    another company stays with every column as it was, except that a
    nullable reference to a department, user or rule of the deleted company
    becomes null. *)
Theorem delete_Company_removes_tenant (c : nat) (db : DB) :
  companies (delete_Company c db) !! c = None
  ∧ (∀ c', c' ≠ c → companies (delete_Company c db) !! c' = companies db !! c')
  ∧ (∀ k d, departments db !! k = Some d →
        departments (delete_Company c db) !! k
        = if decide (Department.company d = c) then None else Some d)
  ∧ (∀ k u, users db !! k = Some u →
        users (delete_Company c db) !! k
        = if decide (User.company u = Some c) then None
          else Some (User.mk (User.username u) (User.company u)
                       (if department_of_company c db (User.department u)
                        then None else User.department u)
                       (User.role u)
                       (if user_of_company c db (User.manager u)
                        then None else User.manager u)))
  ∧ (∀ k r, approval_rules db !! k = Some r →
        approval_rules (delete_Company c db) !! k
        = if decide (ApprovalRule.company r = c) then None
          else Some (ApprovalRule.mk (ApprovalRule.company r) (ApprovalRule.name r)
                       (ApprovalRule.rule_type r)
                       (ApprovalRule.minimum_percentage r)
                       (if user_of_company c db (ApprovalRule.specific_approver r)
                        then None else ApprovalRule.specific_approver r)
                       (ApprovalRule.is_active r)))
  ∧ (∀ k f, approval_flows db !! k = Some f →
        approval_flows (delete_Company c db) !! k
        = if decide (ApprovalFlow.company f = c) then None
          else Some (ApprovalFlow.mk (ApprovalFlow.company f) (ApprovalFlow.name f)
                       (ApprovalFlow.description f)
                       (if department_of_company c db (ApprovalFlow.department f)
                        then None else ApprovalFlow.department f)
                       (ApprovalFlow.min_amount f) (ApprovalFlow.max_amount f)
                       (if rule_of_company c db (ApprovalFlow.rule f)
                        then None else ApprovalFlow.rule f)
                       (ApprovalFlow.created_at f))).
Proof.
  unfold delete_Company. repeat apply conj.
  - simpl. apply lookup_drop_rows_gone. set_solver.
  - intros c' Hne. simpl. rewrite lookup_drop_rows.
    rewrite decide_False; [done | set_solver].
  - intros k d Hk. simpl. rewrite lookup_drop_rows.
    destruct (decide (Department.company d = c)) as [Hc|Hc].
    + rewrite decide_True; [done|]. apply lookup_referring_singleton. eauto.
    + rewrite decide_False; [done|].
      intros (d' & Hd' & Hc')%lookup_referring_singleton. congruence.
  - intros k u Hk. simpl. rewrite lookup_drop_rows.
    destruct (decide (User.company u = Some c)) as [Hc|Hc].
    + rewrite decide_True; [done|]. apply lookup_referring_opt_singleton.
      rewrite lookup_set_null, Hk. simpl. eexists. split; [done|].
      by destruct (points_at_opt _ _).
    + rewrite decide_False.
      * rewrite !lookup_set_null, Hk. simpl. f_equal.
        rewrite points_at_opt_departments.
        destruct (department_of_company c db (User.department u)); simpl;
          rewrite points_at_opt_users;
          destruct (user_of_company c db (User.manager u)); by destruct u.
      * intros (u' & Hu' & Hc')%lookup_referring_opt_singleton.
        rewrite lookup_set_null, Hk in Hu'. simpl in Hu'.
        injection Hu' as <-. apply Hc.
        by destruct (points_at_opt _ _) in Hc'.
  - intros k r Hk. simpl. rewrite lookup_drop_rows.
    destruct (decide (ApprovalRule.company r = c)) as [Hc|Hc].
    + rewrite decide_True; [done|]. apply lookup_referring_singleton.
      rewrite lookup_set_null, Hk. simpl. eexists. split; [done|].
      by destruct (points_at_opt _ _).
    + rewrite decide_False.
      * rewrite !lookup_set_null, Hk. simpl. f_equal.
        rewrite points_at_opt_users.
        destruct (user_of_company c db (ApprovalRule.specific_approver r));
          by destruct r.
      * intros (r' & Hr' & Hc')%lookup_referring_singleton.
        rewrite lookup_set_null, Hk in Hr'. simpl in Hr'.
        injection Hr' as <-. apply Hc.
        by destruct (points_at_opt _ _) in Hc'.
  - intros k f Hk. simpl. rewrite lookup_drop_rows.
    destruct (decide (ApprovalFlow.company f = c)) as [Hc|Hc].
    + rewrite decide_True; [done|]. apply lookup_referring_singleton.
      rewrite !lookup_set_null, Hk. simpl. eexists. split; [done|].
      repeat match goal with |- context [if ?b then _ else _] => destruct b end;
        done.
    + rewrite decide_False.
      * rewrite !lookup_set_null, Hk. simpl. f_equal.
        rewrite points_at_opt_departments.
        destruct (department_of_company c db (ApprovalFlow.department f)); simpl;
          rewrite points_at_opt_rules;
          destruct (rule_of_company c db (ApprovalFlow.rule f)); by destruct f.
      * intros (f' & Hf' & Hc')%lookup_referring_singleton.
        rewrite !lookup_set_null, Hk in Hf'. simpl in Hf'.
        injection Hf' as <-. apply Hc.
        repeat match type of Hc' with
               | context [if ?b then _ else _] => destruct b
               end; done.
Qed.

(** X6: deleting a department deletes no user and no flow: those of the
    department stay with [department] set to null, the rest as they
    were. *)
Theorem delete_Department_sets_null (d : nat) (db : DB) :
  departments (delete_Department d db) !! d = None
  ∧ (∀ d', d' ≠ d → departments (delete_Department d db) !! d' = departments db !! d')
  ∧ (∀ k u, users db !! k = Some u →
        users (delete_Department d db) !! k
        = Some (if decide (User.department u = Some d)
                then User.set_department None u else u))
  ∧ (∀ k f, approval_flows db !! k = Some f →
        approval_flows (delete_Department d db) !! k
        = Some (if decide (ApprovalFlow.department f = Some d)
                then ApprovalFlow.set_department None f else f)).
Proof.
  unfold delete_Department. repeat apply conj; simpl.
  - apply lookup_drop_rows_gone. set_solver.
  - intros d' Hne. rewrite lookup_drop_rows.
    rewrite decide_False; [done | set_solver].
  - intros k u Hk. rewrite lookup_set_null, Hk. simpl.
    rewrite points_at_opt_singleton. by repeat case_decide; case_bool_decide.
  - intros k f Hk. rewrite lookup_set_null, Hk. simpl.
    rewrite points_at_opt_singleton. by repeat case_decide; case_bool_decide.
Qed.


(** X8: deleting a flow deletes its steps and nothing else: the expenses
    pinned to it stay with [flow] set to null, and every approval stays,
    with [flow_step] set to null when its step belonged to the flow. *)
Theorem delete_ApprovalFlow_cascades (f : nat) (db : DB) :
  approval_flows (delete_ApprovalFlow f db) !! f = None
  ∧ (∀ k s, flow_steps db !! k = Some s →
        flow_steps (delete_ApprovalFlow f db) !! k
        = if decide (FlowStep.flow s = f) then None else Some s)
  ∧ (∀ k e, expenses db !! k = Some e →
        expenses (delete_ApprovalFlow f db) !! k
        = Some (if decide (Expense.flow e = Some f)
                then Expense.set_flow None e else e))
  ∧ (∀ k a, expense_approvals db !! k = Some a →
        expense_approvals (delete_ApprovalFlow f db) !! k
        = Some (if decide ((ExpenseApproval.flow_step a
                              ≫= λ sid, FlowStep.flow <$> flow_steps db !! sid)
                           = Some f)
                then ExpenseApproval.set_flow_step None a else a)).
Proof.
  unfold delete_ApprovalFlow. repeat apply conj; simpl.
  - apply lookup_drop_rows_gone. set_solver.
  - intros k s Hk. rewrite lookup_drop_rows.
    destruct (decide (FlowStep.flow s = f)) as [Hf|Hf].
    + rewrite decide_True; [done|]. apply lookup_referring_singleton. eauto.
    + rewrite decide_False; [done|].
      intros (s' & Hs' & Hf')%lookup_referring_singleton. congruence.
  - intros k e Hk. rewrite lookup_set_null, Hk. simpl.
    rewrite points_at_opt_singleton. by repeat case_decide; case_bool_decide.
  - intros k a Hk. rewrite lookup_set_null, Hk. simpl. f_equal.
    destruct (ExpenseApproval.flow_step a) as [sid|] eqn:Hsid; simpl.
    + destruct (decide (FlowStep.flow <$> flow_steps db !! sid = Some f)) as [Hex|Hex].
      * rewrite bool_decide_eq_true_2; [done|].
        destruct (flow_steps db !! sid) as [s|] eqn:Hs; [|done].
        apply lookup_referring_singleton.
        exists s. split; [done|]. by injection Hex.
      * rewrite bool_decide_eq_false_2; [done|].
        intros (s & Hs & Hf)%lookup_referring_singleton.
        apply Hex. by rewrite Hs, <- Hf.
    + done.
Qed.

(** X9: deleting a user deletes exactly their expenses, and exactly the
    approvals that they were to review or that belong to one of their
    expenses. *)
Theorem delete_User_cascades (uid : nat) (db : DB) :
  (∀ k e, expenses db !! k = Some e →
      expenses (delete_User uid db) !! k
      = if decide (Expense.employee e = uid) then None else Some e)
  ∧ (∀ k a, expense_approvals db !! k = Some a →
      expense_approvals (delete_User uid db) !! k = None
      ↔ ExpenseApproval.approver a = uid
        ∨ (Expense.employee <$> expenses db !! ExpenseApproval.expense a) = Some uid).
Proof.
  unfold delete_User. split; simpl.
  - intros k e Hk. rewrite lookup_drop_rows.
    destruct (decide (Expense.employee e = uid)) as [He|He].
    + rewrite decide_True; [done|]. apply lookup_referring_singleton. eauto.
    + rewrite decide_False; [done|].
      intros (e' & He' & Hu)%lookup_referring_singleton. congruence.
  - intros k a Hk.
    set (nulled := set_null _ _ (expense_approvals db)).
    assert (∃ a', nulled !! k = Some a'
                  ∧ ExpenseApproval.expense a' = ExpenseApproval.expense a
                  ∧ ExpenseApproval.approver a' = ExpenseApproval.approver a)
      as (a' & Hk' & Hexp & Happ).
    { unfold nulled. rewrite lookup_set_null, Hk. simpl. eexists. split; [done|].
      by destruct (points_at_opt _ _). }
    set (of_expenses := referring _ nulled).
    assert (k ∈ of_expenses
            ↔ (Expense.employee <$> expenses db !! ExpenseApproval.expense a)
              = Some uid) as Hof.
    { unfold of_expenses. rewrite elem_of_referring. split.
      - intros (a'' & Ha'' & Hp). assert (a'' = a') as -> by congruence.
        apply bool_decide_eq_true_1, lookup_referring_singleton in Hp
          as (e & He & Hu).
        by rewrite <- Hexp, He, <- Hu.
      - intros He. exists a'. split; [done|]. apply bool_decide_eq_true_2.
        apply lookup_referring_singleton. rewrite Hexp.
        destruct (expenses db !! ExpenseApproval.expense a) as [e|]; [|done].
        exists e. split; [done|]. by injection He. }
    rewrite lookup_drop_rows. destruct (decide (k ∈ referring _ _)) as [Hin|Hin].
    + split; [intros _|done].
      apply elem_of_referring in Hin as (a'' & Ha'' & Hp).
      rewrite lookup_drop_rows in Ha''.
      destruct (decide (k ∈ of_expenses)); [done|].
      assert (a'' = a') as -> by congruence.
      rewrite points_at_singleton in Hp. apply bool_decide_eq_true_1 in Hp.
      left. congruence.
    + rewrite lookup_drop_rows. destruct (decide (k ∈ of_expenses)) as [Hin'|Hin'].
      * split; [intros _|done]. right. by apply Hof.
      * rewrite Hk'. split; [done|]. intros [Hu|He].
        -- destruct Hin. apply elem_of_referring. exists a'.
           rewrite lookup_drop_rows, decide_False by done. split; [done|].
           rewrite points_at_singleton. apply bool_decide_eq_true_2. congruence.
        -- destruct Hin'. by apply Hof.
Qed.

(** X10: deleting an expense deletes it and its approvals, and nothing
    else. *)
Theorem delete_Expense_cascades (e : nat) (db : DB) :
  expenses (delete_Expense e db) = delete e (expenses db)
  ∧ (∀ k a, expense_approvals db !! k = Some a →
        expense_approvals (delete_Expense e db) !! k
        = if decide (ExpenseApproval.expense a = e) then None else Some a)
  ∧ companies (delete_Expense e db) = companies db
  ∧ departments (delete_Expense e db) = departments db
  ∧ users (delete_Expense e db) = users db
  ∧ approval_rules (delete_Expense e db) = approval_rules db
  ∧ approval_flows (delete_Expense e db) = approval_flows db
  ∧ flow_steps (delete_Expense e db) = flow_steps db.
Proof.
  unfold delete_Expense. repeat apply conj; try reflexivity; simpl.
  - apply map_eq. intros k. rewrite lookup_drop_rows, lookup_delete.
    destruct (decide (e = k)) as [->|Hne].
    + rewrite decide_True; [done | set_solver].
    + rewrite decide_False; [done | set_solver].
  - intros k a Hk. rewrite lookup_drop_rows.
    destruct (decide (ExpenseApproval.expense a = e)) as [He|He].
    + rewrite decide_True; [done|]. apply lookup_referring_singleton. eauto.
    + rewrite decide_False; [done|].
      intros (a' & Ha' & He')%lookup_referring_singleton. congruence.
Qed.

(** X5: deleting a company also deletes, two levels down, the steps of
    its flows, the steps approved by its users, the expenses of its users
    and the approvals of those expenses. *)
Theorem delete_Company_cascades_further (c : nat) (db : DB) :
  (∀ k s f, flow_steps db !! k = Some s →
      approval_flows db !! FlowStep.flow s = Some f →
      ApprovalFlow.company f = c →
      flow_steps (delete_Company c db) !! k = None)
  ∧ (∀ k s u, flow_steps db !! k = Some s →
      users db !! FlowStep.approver s = Some u →
      User.company u = Some c →
      flow_steps (delete_Company c db) !! k = None)
  ∧ (∀ k e u, expenses db !! k = Some e →
      users db !! Expense.employee e = Some u →
      User.company u = Some c →
      expenses (delete_Company c db) !! k = None)
  ∧ (∀ k a e u, expense_approvals db !! k = Some a →
      expenses db !! ExpenseApproval.expense a = Some e →
      users db !! Expense.employee e = Some u →
      User.company u = Some c →
      expense_approvals (delete_Company c db) !! k = None).
Proof.
  unfold delete_Company.
  set (nulled_users := set_null
         (λ u, points_at_opt
                 (referring (λ d, points_at {[c]} (Department.company d))
                            (departments db)) (User.department u))
         (User.set_department None) (users db)).
  set (gone_users := referring (λ u, points_at_opt {[c]} (User.company u)) nulled_users).
  assert (∀ k u, users db !! k = Some u → User.company u = Some c → k ∈ gone_users)
    as Hgone.
  { intros k u Hk Hc. apply lookup_referring_opt_singleton.
    unfold nulled_users. rewrite lookup_set_null, Hk. simpl.
    eexists. split; [done|]. by destruct (points_at_opt _ _). }
  repeat apply conj.
  - intros k s f Hk Hf Hc. simpl. fold nulled_users. fold gone_users.
    rewrite lookup_drop_rows. destruct (decide (k ∈ referring _ _)) as [|Hn]; [done|].
    rewrite lookup_drop_rows.
    destruct (decide (k ∈ referring _ (flow_steps db))) as [|Hn']; [done|].
    exfalso. apply Hn. apply elem_of_referring.
    rewrite lookup_drop_rows, decide_False by done.
    exists s. split; [done|]. apply bool_decide_eq_true_2.
    apply lookup_referring_singleton. rewrite !lookup_set_null, Hf. simpl.
    eexists. split; [done|].
    repeat match goal with |- context [if ?b then _ else _] => destruct b end;
      done.
  - intros k s u Hk Hu Hc. simpl. fold nulled_users. fold gone_users.
    rewrite lookup_drop_rows. destruct (decide (k ∈ referring _ _)) as [|Hn]; [done|].
    rewrite lookup_drop_rows. rewrite decide_True; [done|].
    apply elem_of_referring. exists s. split; [done|].
    apply bool_decide_eq_true_2. by eapply Hgone.
  - intros k e u Hk Hu Hc. simpl. fold nulled_users. fold gone_users.
    rewrite !lookup_set_null, lookup_drop_rows. rewrite decide_True; [done|].
    apply elem_of_referring. exists e. split; [done|].
    apply bool_decide_eq_true_2. by eapply Hgone.
  - intros k a e u Hk He Hu Hc. simpl. fold nulled_users. fold gone_users.
    rewrite lookup_set_null.
    rewrite lookup_drop_rows. destruct (decide (k ∈ referring _ _)) as [|Hn]; [done|].
    rewrite lookup_drop_rows. rewrite decide_True; [done|].
    apply elem_of_referring. rewrite lookup_set_null, Hk. simpl.
    eexists. split; [done|]. apply bool_decide_eq_true_2.
    apply elem_of_referring. exists e.
    split; [by destruct (points_at_opt _ _)|].
    apply bool_decide_eq_true_2. by eapply Hgone.
Qed.

Lemma delete_Company_cascades_further_witness :
  expense_approvals (delete_Company 1 acme_manager_approved) !! 2%nat = None.
Proof.
  apply (proj2 (proj2 (proj2 (delete_Company_cascades_further 1 acme_manager_approved)))
           2%nat
           (ExpenseApproval.mk 1 3 (Some 2%nat) A_PENDING EmptyString None)
           (Expense.set_status PENDING
              (Expense.set_flow (Some 1%nat)
                 (Expense.set_approval_rule (Some 1%nat)
                    (Expense.create 2 "Taxi" "Travel" 500000 "INR" "Rs"
                       500000 "INR" "Rs" 0 0 None None None None))))
           (User.mk "employee" (Some 1%nat) None EMPLOYEE (Some 1%nat)));
    first [reflexivity | vm_compute; reflexivity].
Defined.

Lemma delete_Company_removes_tenant_witness :
  departments (delete_Company 1 finance_db) !! 1%nat = None
  ∧ users (delete_Company 1 finance_db) !! 1%nat
    = Some (User.mk "ann" None None EMPLOYEE None).
Proof.
  split.
  - exact (proj1 (proj2 (proj2 (delete_Company_removes_tenant 1 finance_db)))
             1%nat (Department.mk 1 "Finance") eq_refl).
  - exact (proj1 (proj2 (proj2 (proj2
             (delete_Company_removes_tenant 1 finance_db))))
             1%nat (User.mk "ann" None (Some 1%nat) EMPLOYEE None) eq_refl).
Defined.

Lemma delete_Department_sets_null_witness :
  users (delete_Department 1 finance_db) !! 1%nat
  = Some (User.mk "ann" None None EMPLOYEE None).
Proof.
  exact (proj1 (proj2 (proj2 (delete_Department_sets_null 1 finance_db)))
           1%nat (User.mk "ann" None (Some 1%nat) EMPLOYEE None) eq_refl).
Defined.


Lemma delete_ApprovalFlow_cascades_witness :
  flow_steps (delete_ApprovalFlow 1 acme_manager_approved) !! 2%nat = None
  ∧ expense_approvals (delete_ApprovalFlow 1 acme_manager_approved) !! 2%nat
    = Some (ExpenseApproval.mk 1 3 None A_PENDING EmptyString None).
Proof.
  split.
  - exact (proj1 (proj2 (delete_ApprovalFlow_cascades 1 acme_manager_approved))
             2%nat (FlowStep.mk 1 3 2 false false) eq_refl).
  - exact (proj2 (proj2 (proj2 (delete_ApprovalFlow_cascades 1 acme_manager_approved)))
             2%nat
             (ExpenseApproval.mk 1 3 (Some 2%nat) A_PENDING EmptyString None)
             eq_refl).
Defined.

Lemma delete_User_cascades_witness :
  expense_approvals (delete_User 1 acme_manager_approved) !! 1%nat = None.
Proof.
  apply (proj2 (delete_User_cascades 1 acme_manager_approved) 1%nat
           (ExpenseApproval.mk 1 1 (Some 1%nat) A_APPROVED "ok" (Some 5))).
  - vm_compute. reflexivity.
  - left. reflexivity.
Defined.

Lemma delete_Expense_cascades_witness :
  expense_approvals (delete_Expense 1 acme_manager_approved) !! 2%nat = None.
Proof.
  exact (proj1 (proj2 (delete_Expense_cascades 1 acme_manager_approved))
           2%nat
           (ExpenseApproval.mk 1 3 (Some 2%nat) A_PENDING EmptyString None)
           eq_refl).
Defined.

(* ===================================================================== *)
(** ** Saving a user: frame and repetition                               *)
(* ===================================================================== *)

(** What a save returns, whatever the fuel: the row stored, and at most one
    new company. *)
Lemma User_save_result fuel now instance db instance' db' :
  User_save fuel now instance db = Some (instance', db') →
  let pk := saved_pk instance db in
  (instance' = UserInstance.set_pk (Some pk) instance
   ∧ db' = with_users (<[pk := UserInstance.fields instance]> (users db)) db)
  ∨ (∃ company,
        instance' = UserInstance.set_company (Some (fresh_pk (companies db)))
                      (UserInstance.set_pk (Some pk) instance)
        ∧ db' = with_users
                  (<[pk := UserInstance.fields instance']>
                     (<[pk := UserInstance.fields instance]> (users db)))
                  (with_companies
                     (<[fresh_pk (companies db) := company]> (companies db)) db)).
Proof.
  destruct fuel as [|fuel]; [done|]. rewrite User_save_S. intros Hsave pk.
  fold pk in Hsave. unfold create_company_for_admin in Hsave.
  destruct (_ && _ && _) in Hsave; [|left; by simplify_eq].
  destruct (_ && _ && _ && _) in Hsave; [|left; by simplify_eq].
  unfold Company_objects_create in Hsave. cbn [fst snd] in Hsave.
  destruct fuel as [|fuel]; [done|].
  erewrite User_save_update in Hsave; cycle 1.
  { reflexivity. }
  { cbn. rewrite lookup_insert_eq. eauto. }
  right. eexists. by simplify_eq.
Qed.

(** X11: a save that returns touches nothing but the saved user's row and
    at most one new company: the six other tables, the other users' rows
    and every existing company are as before, the companies table is either
    unchanged or extended by one row under a primary key that was free, and
    of the object only [pk] and [company] may change. *)
Theorem User_save_frame (fuel : nat) (now : Z) (instance instance' : UserInstance.t)
    (db db' : DB) :
  User_save fuel now instance db = Some (instance', db') →
  departments db' = departments db
  ∧ approval_rules db' = approval_rules db
  ∧ approval_flows db' = approval_flows db
  ∧ flow_steps db' = flow_steps db
  ∧ expenses db' = expenses db
  ∧ expense_approvals db' = expense_approvals db
  ∧ (∀ k, k ≠ saved_pk instance db → users db' !! k = users db !! k)
  ∧ (∀ c x, companies db !! c = Some x → companies db' !! c = Some x)
  ∧ (companies db' = companies db
     ∨ ∃ company,
         companies db !! fresh_pk (companies db) = None
         ∧ companies db' = <[fresh_pk (companies db) := company]> (companies db))
  ∧ UserInstance.attrs instance' = UserInstance.attrs instance
  ∧ User.username (UserInstance.fields instance')
    = User.username (UserInstance.fields instance)
  ∧ User.department (UserInstance.fields instance')
    = User.department (UserInstance.fields instance)
  ∧ User.role (UserInstance.fields instance')
    = User.role (UserInstance.fields instance)
  ∧ User.manager (UserInstance.fields instance')
    = User.manager (UserInstance.fields instance).
Proof.
  intros [[-> ->]|(company & -> & ->)]%User_save_result;
    repeat apply conj; try reflexivity; simpl.
  - intros k Hne. by rewrite lookup_insert_ne.
  - done.
  - by left.
  - intros k Hne. by rewrite !lookup_insert_ne.
  - intros c x Hc. rewrite lookup_insert_ne; [done|].
    intros <-. by rewrite fresh_pk_unused in Hc.
  - right. exists company. split; [apply fresh_pk_unused | done].
Qed.

Lemma User_save_frame_witness :
  ∃ instance' db',
    User_save 2 0 signup acme_db = Some (instance', db')
    ∧ expenses db' = expenses acme_db
    ∧ users db' !! 2%nat = users acme_db !! 2%nat
    ∧ companies db' !! 1%nat = companies acme_db !! 1%nat
    ∧ (companies db' = companies acme_db
       ∨ ∃ company, companies db' = <[2%nat := company]> (companies acme_db)).
Proof.
  destruct (User_save 2 0 signup acme_db) as [[instance' db']|] eqn:Hsave;
    [|vm_compute in Hsave; discriminate].
  exists instance', db'. split; [reflexivity|].
  destruct (User_save_frame 2 0 signup instance' acme_db db' Hsave)
    as (_ & _ & _ & _ & He & _ & Hu & Hc & Hnew & _).
  split; [exact He|]. split; [|split].
  - apply Hu. vm_compute. lia.
  - rewrite (Hc 1%nat (Company.mk "Acme" "India" "INR" "Rs" 0)); reflexivity.
  - destruct Hnew as [Hsame|(company & _ & Hone)]; [by left|].
    right. exists company. exact Hone.
Defined.

(** X12: saving again the object that a save returned changes nothing
    and creates no company. *)
Theorem User_save_again (fuel fuel' : nat) (now now' : Z)
    (instance instance' : UserInstance.t) (db db' : DB) :
  User_save fuel now instance db = Some (instance', db') →
  User_save (S fuel') now' instance' db' = Some (instance', db').
Proof.
  intros Hsave.
  assert (UserInstance.pk instance' = Some (saved_pk instance db)
          ∧ users db' !! saved_pk instance db = Some (UserInstance.fields instance'))
    as [Hpk Hrow].
  { apply User_save_result in Hsave as [[-> ->]|(company & -> & ->)]; simpl;
      by rewrite lookup_insert_eq. }
  rewrite (User_save_update _ _ _ _ _ Hpk) by eauto.
  rewrite insert_id by done. unfold with_users. by rewrite DB_eta.
Qed.

Lemma User_save_again_witness :
  ∃ instance' db',
    User_save 2 0 signup acme_db = Some (instance', db')
    ∧ User_save 1 7 instance' db' = Some (instance', db').
Proof.
  destruct (User_save 2 0 signup acme_db) as [[instance' db']|] eqn:Hsave;
    [|vm_compute in Hsave; discriminate].
  exists instance', db'. split; [reflexivity|].
  exact (User_save_again 2 0 0 7 signup instance' acme_db db' Hsave).
Defined.

Lemma referring_insert_only {A} (refers : A → bool) (tbl : gmap nat A) pk row :
  refers row = true →
  (∀ k r, tbl !! k = Some r → refers r = false) →
  referring refers (<[pk := row]> tbl) = {[ pk ]}.
Proof.
  intros Hrow Hold. apply set_eq. intros k.
  rewrite elem_of_referring, elem_of_singleton. split.
  - intros (r & [[-> ->]|[Hne Hr]]%lookup_insert_Some & Ht); [done|].
    rewrite (Hold k r Hr) in Ht. done.
  - intros ->. exists row. by rewrite lookup_insert_eq.
Qed.

Lemma unreferenced_not_pointed {A} (src : gmap nat A) (fk : A → option nat)
    (gone : gset nat) k r :
  unreferenced src fk gone → src !! k = Some r → points_at_opt gone (fk r) = false.
Proof.
  intros Hun Hk. destruct (fk r) as [t|] eqn:Hfk; [|done]. simpl.
  apply bool_decide_eq_false_2. by eapply Hun.
Qed.

(** Deleting a user that nothing refers to removes the row and nothing
    else. *)
Lemma delete_Users_unreferenced_row pk row db :
  unreferenced (flow_steps db) (λ s, Some (FlowStep.approver s)) {[ pk ]} →
  unreferenced (expenses db) (λ e, Some (Expense.employee e)) {[ pk ]} →
  unreferenced (expense_approvals db) (λ a, Some (ExpenseApproval.approver a)) {[ pk ]} →
  unreferenced (approval_rules db) ApprovalRule.specific_approver {[ pk ]} →
  unreferenced (users db) User.manager {[ pk ]} →
  users db !! pk = None →
  delete_Users {[ pk ]} (with_users (<[pk := row]> (users db)) db) = db.
Proof.
  intros H1 H2 H3 H4 H5 Habs. unfold delete_Users.
  change (flow_steps (with_users _ db)) with (flow_steps db).
  unref_ref (flow_steps db) H1. rewrite delete_FlowSteps_empty.
  change (expenses (with_users _ db)) with (expenses db).
  unref_ref (expenses db) H2. rewrite delete_Expenses_empty.
  change (expense_approvals (with_users _ db)) with (expense_approvals db).
  unref_ref (expense_approvals db) H3. rewrite delete_ExpenseApprovals_empty.
  unfold with_users, with_approval_rules; simpl.
  rewrite (set_null_unreferenced _ _ _ _ H4).
  replace (drop_rows {[pk]} _) with (users db); [apply DB_eta|].
  apply map_eq. intros k. rewrite lookup_drop_rows.
  destruct (decide (k ∈ ({[pk]} : gset nat))) as [->%elem_of_singleton|Hne];
    [done|].
  rewrite lookup_set_null, lookup_insert_ne by set_solver.
  destruct (users db !! k) as [u|] eqn:Hk; [|done]. simpl.
  by rewrite (unreferenced_not_pointed _ _ _ _ _ H5 Hk).
Qed.

(** X13: when the save of a new user without company, on a consistent
    database, has provisioned company [c], deleting [c] deletes the user
    with it and gives back the database as it was before the save. *)
Theorem signup_then_delete_Company (fuel : nat) (now : Z)
    (instance instance' : UserInstance.t) (db db' : DB) (c : nat) :
  consistent db →
  UserInstance.pk instance = None →
  User.company (UserInstance.fields instance) = None →
  User_save fuel now instance db = Some (instance', db') →
  User.company (UserInstance.fields instance') = Some c →
  delete_Company c db' = db.
Proof.
  intros Hdb Hpk Hnone Hsave Hc.
  assert (saved_pk instance db = fresh_pk (users db)) as Hfresh
    by (unfold saved_pk; by rewrite Hpk).
  apply User_save_result in Hsave as [[-> ->]|(company & -> & ->)];
    simpl in Hc; [congruence|].
  injection Hc as <-. rewrite Hfresh. simpl. rewrite insert_insert_eq.
  set (pk := fresh_pk (users db)). set (cid := fresh_pk (companies db)).
  set (row := User.set_company (Some cid) (UserInstance.fields instance)).
  assert (companies db !! cid = None) as Hcid by apply fresh_pk_unused.
  assert (users db !! pk = None) as Hpk' by apply fresh_pk_unused.
  unfold delete_Company, delete_Companies.
  change (departments (with_users _ (with_companies _ db))) with (departments db).
  unref_ref (departments db) (absent_unreferenced _ _ _ _ (Department_company_ok db Hdb) Hcid).
  rewrite delete_Departments_empty.
  change (users (with_users ?x _)) with x.
  rewrite referring_insert_only; cycle 1.
  { simpl. by apply bool_decide_eq_true_2, elem_of_singleton. }
  { intros k r Hk. eapply unreferenced_not_pointed; [|done].
    exact (absent_unreferenced _ _ _ _ (User_company_ok db Hdb) Hcid). }
  replace (with_users (<[pk:=row]> (users db))
                      (with_companies (<[cid:=company]> (companies db)) db))
    with (with_users (<[pk:=row]> (users (with_companies (<[cid:=company]> (companies db)) db)))
                     (with_companies (<[cid:=company]> (companies db)) db))
    by reflexivity.
  rewrite delete_Users_unreferenced_row;
    [ | exact (absent_unreferenced _ _ _ _ (FlowStep_approver_ok db Hdb) Hpk')
      | exact (absent_unreferenced _ _ _ _ (Expense_employee_ok db Hdb) Hpk')
      | exact (absent_unreferenced _ _ _ _ (ExpenseApproval_approver_ok db Hdb) Hpk')
      | exact (absent_unreferenced _ _ _ _ (ApprovalRule_specific_approver_ok db Hdb) Hpk')
      | exact (absent_unreferenced _ _ _ _ (User_manager_ok db Hdb) Hpk')
      | exact Hpk' ].
  change (approval_rules (with_companies _ db)) with (approval_rules db).
  unref_ref (approval_rules db) (absent_unreferenced _ _ _ _ (ApprovalRule_company_ok db Hdb) Hcid).
  rewrite delete_ApprovalRules_empty.
  change (approval_flows (with_companies _ db)) with (approval_flows db).
  unref_ref (approval_flows db) (absent_unreferenced _ _ _ _ (ApprovalFlow_company_ok db Hdb) Hcid).
  rewrite delete_ApprovalFlows_empty.
  unfold with_companies; simpl.
  replace (drop_rows {[cid]} _) with (companies db); [apply DB_eta|].
  apply map_eq. intros k. rewrite lookup_drop_rows.
  destruct (decide (k ∈ ({[cid]} : gset nat))) as [->%elem_of_singleton|Hne];
    [done|].
  rewrite lookup_insert_ne by set_solver. done.
Qed.

Lemma signup_then_delete_Company_witness :
  ∃ instance' db',
    User_save 2 0 signup acme_db = Some (instance', db')
    ∧ companies db' !! 2%nat = Some (Company.mk "Acme" "India" "INR" "Rs" 0)
    ∧ delete_Company 2 db' = acme_db.
Proof.
  destruct (User_save 2 0 signup acme_db) as [[instance' db']|] eqn:Hsave;
    [|vm_compute in Hsave; discriminate].
  exists instance', db'. split; [reflexivity|].
  split; [vm_compute in Hsave; by simplify_eq|].
  apply (signup_then_delete_Company 2 0 signup instance' acme_db db' 2).
  - apply check_integrity_consistent. vm_compute. reflexivity.
  - reflexivity.
  - reflexivity.
  - exact Hsave.
  - vm_compute in Hsave. by simplify_eq.
Defined.

(* ===================================================================== *)
(** ** String representations                                            *)
(* ===================================================================== *)

Lemma dept_suffix_defined db (department : option nat) :
  (∀ d, department = Some d → is_Some (departments db !! d)) →
  is_Some (dept_suffix db department).
Proof.
  intros H. destruct department as [d|]; simpl; [|eauto].
  destruct (H d eq_refl) as [x ->]. simpl. eauto.
Qed.

(** X14: on a consistent database the [__str__] of every row of every
    model returns a string: no foreign key it follows is missing, and a
    null department is skipped. *)
Theorem str_defined (db : DB) :
  consistent db →
  (∀ k d, departments db !! k = Some d → is_Some (Department_str db d))
  ∧ (∀ k u, users db !! k = Some u → is_Some (User_str db u))
  ∧ (∀ k f, approval_flows db !! k = Some f → is_Some (ApprovalFlow_str db f))
  ∧ (∀ k s, flow_steps db !! k = Some s → is_Some (FlowStep_str db s))
  ∧ (∀ k e, expenses db !! k = Some e → is_Some (Expense_str db k e))
  ∧ (∀ k a, expense_approvals db !! k = Some a → is_Some (ExpenseApproval_str db a)).
Proof.
  intros H. repeat apply conj.
  - intros k d Hk. unfold Department_str.
    destruct (Department_company_ok db H k d _ Hk eq_refl) as [c ->]. simpl. eauto.
  - intros k u Hk. unfold User_str.
    destruct (dept_suffix_defined db (User.department u)) as [s ->];
      [intros d Hd; by eapply (User_department_ok db H)|]. simpl. eauto.
  - intros k f Hk. unfold ApprovalFlow_str.
    destruct (dept_suffix_defined db (ApprovalFlow.department f)) as [s ->];
      [intros d Hd; by eapply (ApprovalFlow_department_ok db H)|]. simpl. eauto.
  - intros k s Hk. unfold FlowStep_str.
    destruct (FlowStep_approver_ok db H k s _ Hk eq_refl) as [u ->]. simpl. eauto.
  - intros k e Hk. unfold Expense_str.
    destruct (Expense_employee_ok db H k e _ Hk eq_refl) as [u ->]. simpl. eauto.
  - intros k a Hk. unfold ExpenseApproval_str.
    destruct (ExpenseApproval_expense_ok db H k a _ Hk eq_refl) as [e ->].
    destruct (ExpenseApproval_approver_ok db H k a _ Hk eq_refl) as [u ->].
    simpl. eauto.
Qed.

Example acme_strings :
  User_str acme_db (User.mk "employee" (Some 1%nat) None EMPLOYEE (Some 1%nat))
  = Some "employee (EMPLOYEE)"
  ∧ FlowStep_str acme_db (FlowStep.mk 1 3 2 false false) = Some "Step 2 - cfo"
  ∧ (Expense_str acme_db 1 <$> expenses acme_db !! 1%nat)
    = Some (Some "Expense 1 - employee (DRAFT)")
  ∧ (ExpenseApproval_str acme_manager_approved
       <$> expense_approvals acme_manager_approved !! 2%nat)
    = Some (Some "Approval for 1 by cfo - PENDING").
Proof. vm_compute. done. Qed.


(** X15: after its department is deleted, a user still has a string: the
    one without the department part. *)
Theorem User_str_after_delete_Department (d k : nat) (u : User.t) (db : DB) :
  users db !! k = Some u →
  User.department u = Some d →
  ∃ u', users (delete_Department d db) !! k = Some u'
        ∧ User_str (delete_Department d db) u'
          = Some (User.username u +:+ " (" +:+ Role_str (User.role u) +:+ ")").
Proof.
  intros Hk Hd. eexists. split.
  - unfold delete_Department. simpl. rewrite lookup_set_null, Hk. simpl.
    rewrite points_at_opt_singleton, Hd. by rewrite bool_decide_eq_true_2.
  - reflexivity.
Qed.

Lemma str_defined_witness :
  is_Some (User_str acme_db (User.mk "cfo" (Some 1%nat) None MANAGER None))
  ∧ is_Some (FlowStep_str acme_db (FlowStep.mk 1 3 2 false false)).
Proof.
  destruct (str_defined acme_db) as (_ & Hu & _ & Hs & _).
  { apply check_integrity_consistent. vm_compute. reflexivity. }
  split.
  - apply (Hu 3%nat). reflexivity.
  - apply (Hs 2%nat). reflexivity.
Defined.

Lemma User_str_after_delete_Department_witness :
  ∃ u', users (delete_Department 1 finance_db) !! 1%nat = Some u'
        ∧ User_str (delete_Department 1 finance_db) u' = Some "ann (EMPLOYEE)".
Proof.
  apply (User_str_after_delete_Department 1 1
           (User.mk "ann" None (Some 1%nat) EMPLOYEE None)); reflexivity.
Defined.

(* ===================================================================== *)
(** ** The admin site                                                    *)
(* ===================================================================== *)

Import Admin.

(** X16: every name an admin class lists is a field of its model, every
    lookup in [list_filter], [search_fields] and [ordering] resolves along
    the foreign keys, and every inline's model has exactly one foreign key
    to the model of the page it is shown on. *)
Theorem admin_names_resolve :
  Forall (λ a,
    Forall (λ f, is_Some (field_kind (model a) f))
           (list_display a ++ autocomplete_fields a ++ readonly_fields a
              ++ (fieldsets a ≫= snd))
    ∧ Forall (λ p, is_Some (resolve_lookup (model a) p))
             (list_filter a ++ search_fields a ++ (strip_desc <$> ordering a))
    ∧ Forall (λ i,
        Forall (λ f, is_Some (field_kind (inline_model i) f))
               (inline_fields i ++ inline_readonly_fields i
                  ++ (strip_desc <$> inline_ordering i))
        ∧ length (keys_to (model a) (inline_model i)) = 1%nat)
        (inlines a))
    site.
Proof. apply (bool_decide_unpack _). vm_compute. exact I. Qed.

(** X17: every autocomplete field is a foreign key to a model whose
    registered admin class declares [search_fields]. *)
Theorem autocomplete_targets_searchable :
  Forall (λ a,
    Forall (λ f, ∃ target a',
              field_kind (model a) f = Some (ForeignKey target)
              ∧ admin_of target = Some a'
              ∧ model a' = target
              ∧ search_fields a' ≠ [])
           (autocomplete_fields a))
    site.
Proof.
  repeat constructor; eexists _, _; (split; [reflexivity|]);
    (split; [reflexivity|]); (split; [reflexivity|discriminate]).
Qed.

(** X18: no fieldset names a field twice, and every field that a change
    form or an inline form offers is an editable field of the model: the
    [created_at] columns are read-only wherever they are listed. *)
Theorem forms_offer_editable_fields :
  Forall (λ a,
    NoDup (fieldsets a ≫= snd)
    ∧ Forall (λ f, ∃ k, field_kind (model a) f = Some k ∧ k ≠ Column false)
             (form_fields a)
    ∧ Forall (λ i,
        Forall (λ f, ∃ k, field_kind (inline_model i) f = Some k ∧ k ≠ Column false)
               (inline_form_fields (model a) i))
        (inlines a))
    site.
Proof.
  repeat constructor;
    try (eexists; split; [reflexivity|discriminate]);
    try (apply (bool_decide_unpack _); vm_compute; exact I).
Qed.

(** X19: on the expense page the approvals are read-only (no form field,
    no deletion), while the expense form offers [status], [approval_rule]
    and [flow] but not [created_at]; the approvals' own page offers every
    field but [acted_at]. *)
Theorem approvals_inline_read_only :
  inline_form_fields (model ExpenseAdmin) ExpenseApprovalInline = []
  ∧ can_delete ExpenseApprovalInline = false
  ∧ In ExpenseApprovalInline (inlines ExpenseAdmin)
  ∧ (∀ f, f ∈ ["status"; "approval_rule"; "flow"] → f ∈ form_fields ExpenseAdmin)
  ∧ ("created_at" ∉ form_fields ExpenseAdmin)
  ∧ (form_fields ExpenseApprovalAdmin
     = ["expense"; "approver"; "flow_step"; "status"; "comments"]).
Proof.
  repeat apply conj; try reflexivity.
  - by left.
  - intros f Hf. apply (bool_decide_unpack _).
    repeat (apply elem_of_cons in Hf as [->|Hf]); try (vm_compute; exact I).
    by apply elem_of_nil in Hf.
  - apply (bool_decide_unpack _). vm_compute. exact I.
Qed.
